(** * CareerGenie single-page client (frontend/src/App.js)

    A shallow embedding of the interactive logic of [App.js]: the session
    store ([AuthProvider]), the two route guards ([LandingPage],
    [Dashboard]), the dashboard's request handlers, the assessment form
    and the recommendations view.

    React state is explicit state passing: every [useState] cell is a
    record field, every handler is a function on the record.  An [async]
    handler is split at its [await]: the part before it issues the request
    and captures the closure's variables, the part after it consumes the
    response. *)

From stdpp Require Import gmap strings list.

Open Scope string_scope.

(** ** JavaScript values *)

Module Js.

(** JSON data as [axios] hands it over. *)
#[local] Unset Elimination Schemes.
Inductive JValue :=
| JNull
| JBool (b : bool)
| JNum (z : Z)
| JStr (s : string)
| JArr (l : list JValue)
| JObj (m : list (string * JValue)).
#[local] Set Elimination Schemes.

(** The outcome of an awaited [axios] call: the promise resolves with
    [response.data], or rejects (a non-2xx status, no status for a network
    error) and control enters the [catch] block. *)
Inductive Response (A : Type) :=
| Ok (data : A)
| Failed (status : option Z).
Arguments Ok {A} data.
Arguments Failed {A} status.

(** [if (s)] on a string: the empty string is falsy. *)
Definition truthy (s : string) : bool := negb (String.eqb s "").

(** [if (o)] on a value that is [null] or an object. *)
Definition present {A} (o : option A) : bool :=
  match o with Some _ => true | None => false end.

(** White space removed by [String.prototype.trim], on the ASCII range:
    tab, line feed, vertical tab, form feed, carriage return and space.
    [trim] also removes U+00A0, U+FEFF, U+2028, U+2029 and the other
    space separators, which this test does not know: the properties
    below that assume an input is not blank are stated for ASCII
    input. *)
Definition is_space (a : Ascii.ascii) : bool :=
  let n := Ascii.nat_of_ascii a in
  (Nat.leb 9 n && Nat.leb n 13) || Nat.eqb n 32.

Fixpoint drop_spaces (s : string) : string :=
  match s with
  | String a s' => if is_space a then drop_spaces s' else s
  | EmptyString => EmptyString
  end.

Definition rev_string (s : string) : string :=
  String.string_of_list_ascii (rev (String.list_ascii_of_string s)).

(** [s.trim()] *)
Definition trim (s : string) : string :=
  rev_string (drop_spaces (rev_string (drop_spaces s))).

End Js.

(** ** Session store: [AuthProvider] *)

Module Auth.
Import Js.

Record Principal := { id : string; name : string; email : string }.

(** The two [useState] cells of [AuthProvider] together with the two
    pieces of ambient browser state its transitions write:
    [localStorage] and [axios.defaults.headers.common]. *)
Record Session := {
  user : option Principal;
  token : option string;
  localStorage : gmap string string;
  headers : gmap string string;
}.

Definition getItem (k : string) (ls : gmap string string) : option string := ls !! k.
Definition setItem (k v : string) (ls : gmap string string) : gmap string string := <[k := v]> ls.
Definition removeItem (k : string) (ls : gmap string string) : gmap string string := delete k ls.

Definition Bearer (t : string) : string := "Bearer " ++ t.

(** [useEffect(() => { if (token) {...} }, [token])] *)
Definition useEffect_token (s : Session) : Session :=
  match token s with
  | Some t =>
      if truthy t
      then {| user := user s; token := token s; localStorage := localStorage s;
              headers := <["Authorization" := Bearer t]> (headers s) |}
      else s
  | None => s
  end.

(** The effect runs after the first render and after every render in
    which [token] differs from the previous one. *)
Definition commit (before after : Session) : Session :=
  if decide (token before = token after) then after else useEffect_token after.

(** First render of [AuthProvider] over the browser's storage:
    [useState(null)], [useState(localStorage.getItem('token'))], then the
    effect.  This is the spec's [restore()]. *)
Definition AuthProvider (ls : gmap string string) : Session :=
  useEffect_token
    {| user := None; token := getItem "token" ls; localStorage := ls; headers := ∅ |}.

Definition login (userData : Principal) (userToken : string) (s : Session) : Session :=
  commit s
    {| user := Some userData;
       token := Some userToken;
       localStorage := setItem "token" userToken (localStorage s);
       headers := <["Authorization" := Bearer userToken]> (headers s) |}.

Definition logout (s : Session) : Session :=
  commit s
    {| user := None;
       token := None;
       localStorage := removeItem "token" (localStorage s);
       headers := delete "Authorization" (headers s) |}.

(** The transitions a session can take after it was created. *)
Inductive Transition :=
| Login (userData : Principal) (userToken : string)
| Logout.

Definition step (t : Transition) (s : Session) : Session :=
  match t with
  | Login u tok => login u tok s
  | Logout => logout s
  end.

(** The session after a history of transitions, oldest first. *)
Definition run (ts : list Transition) (s : Session) : Session :=
  foldl (fun s t => step t s) s ts.

(** The spec's session invariant, as a test on a session. *)
Definition principal_iff_token (s : Session) : bool :=
  bool_decide (present (user s) = present (token s)).

End Auth.

(** ** Route guard: the first statements of [LandingPage] and [Dashboard] *)

Module Router.
Import Js Auth.

Inductive Element :=
| Navigate (to : string)
| LandingView
| DashboardView (u : Principal).

(** [if (user) return <Navigate to="/dashboard" />; ...] *)
Definition LandingPage (s : Session) : Element :=
  match user s with
  | Some _ => Navigate "/dashboard"
  | None => LandingView
  end.

(** [if (!user) return <Navigate to="/" />; ...] *)
Definition Dashboard (s : Session) : Element :=
  match user s with
  | None => Navigate "/"
  | Some u => DashboardView u
  end.

(** [<Routes>]: the element of a path, if the path has a route.  The
    two paths are matched as they are written in the source; the other
    spellings the router accepts for them (another case, a trailing
    slash) are left out, and nothing below is stated about them. *)
Definition Routes (path : string) (s : Session) : option Element :=
  if String.eqb path "/" then Some (LandingPage s)
  else if String.eqb path "/dashboard" then Some (Dashboard s)
  else None.

End Router.

(** ** Data exchanged with the four services *)

Module Data.
Import Js.

(** A profile is a plain JavaScript object: the one the profile store
    returned, or the form data handed over by [onProfileUpdate]. *)
Abbreviation Profile := (gmap string JValue).

(** One element of the chat-history array, and of [chatMessages]. *)
Record Turn := { message : string; response : string; timestamp : string }.

(** [response.data] of [/assessment/analyze]; the view reads [.analysis]. *)
Record Recommendation := { analysis : string }.

(** [timestamp] values are ISO-8601 strings ([toISOString]), which sort
    chronologically when compared as strings. *)
Definition earlier (a b : Turn) : Prop :=
  String.leb (timestamp a) (timestamp b) = true.

(** Every element stands in relation [R] to all elements after it. *)
Fixpoint ordered {A} (R : A → A → Prop) (l : list A) : Prop :=
  match l with
  | [] => True
  | x :: l' => Forall (R x) l' ∧ ordered R l'
  end.

Definition oldest_first (l : list Turn) : Prop := ordered earlier l.
Definition newest_first (l : list Turn) : Prop := ordered (flip earlier) l.

End Data.

(** ** [Dashboard]: state and request handlers *)

Module Dash.
Import Js Data.

Record State := {
  activeTab : string;
  profile : option Profile;
  chatMessages : list Turn;
  chatInput : string;
  isLoading : bool;
}.

(** The five [useState] initial values. *)
Definition mount : State :=
  {| activeTab := "assessment"; profile := None; chatMessages := [];
     chatInput := ""; isLoading := false |}.

Definition setActiveTab (v : string) (s : State) : State :=
  {| activeTab := v; profile := profile s; chatMessages := chatMessages s;
     chatInput := chatInput s; isLoading := isLoading s |}.
Definition setProfile (v : option Profile) (s : State) : State :=
  {| activeTab := activeTab s; profile := v; chatMessages := chatMessages s;
     chatInput := chatInput s; isLoading := isLoading s |}.
Definition setChatMessages (v : list Turn) (s : State) : State :=
  {| activeTab := activeTab s; profile := profile s; chatMessages := v;
     chatInput := chatInput s; isLoading := isLoading s |}.
Definition setChatInput (v : string) (s : State) : State :=
  {| activeTab := activeTab s; profile := profile s; chatMessages := chatMessages s;
     chatInput := v; isLoading := isLoading s |}.
Definition setIsLoading (v : bool) (s : State) : State :=
  {| activeTab := activeTab s; profile := profile s; chatMessages := chatMessages s;
     chatInput := chatInput s; isLoading := v |}.

(** [fetchProfile] after [await axios.get(`${API}/profile`)]. *)
Definition fetchProfile_resume (r : Response (option Profile)) (s : State) : State :=
  match r with
  | Ok data => setProfile data s
  | Failed _ => s
  end.

(** [fetchChatHistory] after [await axios.get(`${API}/chat/history`)]. *)
Definition fetchChatHistory_resume (r : Response (list Turn)) (s : State) : State :=
  match r with
  | Ok data => setChatMessages (rev data) s
  | Failed _ => s
  end.

(** [sendChatMessage] up to its [await]: the new state and the [message]
    of the request body, if a request is issued. *)
Definition sendChatMessage (s : State) : State * option string :=
  if negb (truthy (trim (chatInput s))) then (s, None)
  else (setIsLoading true s, Some (chatInput s)).

(** [sendChatMessage] after its [await].  [captured] is the state of the
    render whose closure issued the request: [chatInput] and
    [chatMessages] are read from it, not from the current state.  [now]
    is [new Date().toISOString()]. *)
Definition sendChatMessage_resume
    (captured : State) (r : Response string) (now : string) (s : State) : State :=
  match r with
  | Ok reply =>
      let newMessage :=
        {| message := chatInput captured; response := reply; timestamp := now |} in
      setIsLoading false
        (setChatInput "" (setChatMessages (chatMessages captured ++ [newMessage]) s))
  | Failed _ => setIsLoading false s
  end.

End Dash.

(** ** [ChatInterface] *)

Module Chat.
Import Js Data.

Record KeyEvent := { key : string; shiftKey : bool }.

(** [handleKeyPress]: does the handler call [onSend]? *)
Definition handleKeyPress (e : KeyEvent) : bool :=
  String.eqb (key e) "Enter" && negb (shiftKey e).

(** [disabled={isLoading}] of the text area. *)
Definition input_disabled (s : Dash.State) : bool := Dash.isLoading s.

(** [disabled={isLoading || !input.trim()}] of the send button. *)
Definition send_disabled (s : Dash.State) : bool :=
  Dash.isLoading s || negb (truthy (trim (Dash.chatInput s))).

(** What the message pane shows, top to bottom. *)
Inductive Pane :=
| Placeholder
| Bubbles (l : list (string * string)).

(** [messages.length === 0 ? placeholder : messages.map(...)] *)
Definition render (messages : list Turn) : Pane :=
  match messages with
  | [] => Placeholder
  | _ => Bubbles (map (fun msg => (message msg, response msg)) messages)
  end.

End Chat.

(** ** [AssessmentForm] *)

Module Form.
Import Js Data.

Record FormData := {
  academic_level : string;
  current_class : string;
  stream : string;
  subjects : list string;
  grades : list (string * string);
  interests : list string;
  strengths : list string;
  career_goals : string;
}.

Record State := { formData : FormData; isLoading : bool }.

Definition mount : State :=
  {| formData :=
       {| academic_level := ""; current_class := ""; stream := ""; subjects := [];
          grades := []; interests := []; strengths := []; career_goals := "" |};
     isLoading := false |}.

Definition setFormData (v : FormData) (s : State) : State :=
  {| formData := v; isLoading := isLoading s |}.
Definition setIsLoading (v : bool) (s : State) : State :=
  {| formData := formData s; isLoading := v |}.

(** The object a [FormData] is, key by key ([...formData]). *)
Definition to_object (fd : FormData) : Profile :=
  list_to_map
    [ ("academic_level", JStr (academic_level fd));
      ("current_class", JStr (current_class fd));
      ("stream", JStr (stream fd));
      ("subjects", JArr (map JStr (subjects fd)));
      ("grades", JObj (map (fun kv => (kv.1, JStr kv.2)) (grades fd)));
      ("interests", JArr (map JStr (interests fd)));
      ("strengths", JArr (map JStr (strengths fd)));
      ("career_goals", JStr (career_goals fd)) ].

(** The keys of [formData]. *)
Definition field_names : list string :=
  ["academic_level"; "current_class"; "stream"; "subjects"; "grades";
   "interests"; "strengths"; "career_goals"].

(** The option lists of the three selects and of the two check-box groups. *)
Definition academic_levels : list string := ["high_school"; "undergraduate"; "postgraduate"].
Definition classes : list string := ["class_9"; "class_10"; "class_11"; "class_12"].
Definition streams : list string := ["science"; "commerce"; "arts"; "engineering"; "medical"].
Definition interests_options : list string :=
  ["Technology"; "Science"; "Mathematics"; "Arts"; "Sports"; "Music";
   "Writing"; "Business"; "Medicine"; "Engineering"; "Teaching"; "Research"].
Definition strengths_options : list string :=
  ["Problem Solving"; "Leadership"; "Communication"; "Creativity"; "Analysis";
   "Teamwork"; "Organization"; "Critical Thinking"; "Innovation"; "Patience"].

(** [{...formData, academic_level: value}] and its siblings. *)
Definition with_academic_level (v : string) (fd : FormData) : FormData :=
  {| academic_level := v; current_class := current_class fd; stream := stream fd;
     subjects := subjects fd; grades := grades fd; interests := interests fd;
     strengths := strengths fd; career_goals := career_goals fd |}.
Definition with_current_class (v : string) (fd : FormData) : FormData :=
  {| academic_level := academic_level fd; current_class := v; stream := stream fd;
     subjects := subjects fd; grades := grades fd; interests := interests fd;
     strengths := strengths fd; career_goals := career_goals fd |}.
Definition with_stream (v : string) (fd : FormData) : FormData :=
  {| academic_level := academic_level fd; current_class := current_class fd; stream := v;
     subjects := subjects fd; grades := grades fd; interests := interests fd;
     strengths := strengths fd; career_goals := career_goals fd |}.
Definition with_interests (v : list string) (fd : FormData) : FormData :=
  {| academic_level := academic_level fd; current_class := current_class fd;
     stream := stream fd; subjects := subjects fd; grades := grades fd; interests := v;
     strengths := strengths fd; career_goals := career_goals fd |}.
Definition with_strengths (v : list string) (fd : FormData) : FormData :=
  {| academic_level := academic_level fd; current_class := current_class fd;
     stream := stream fd; subjects := subjects fd; grades := grades fd;
     interests := interests fd; strengths := v; career_goals := career_goals fd |}.
Definition with_career_goals (v : string) (fd : FormData) : FormData :=
  {| academic_level := academic_level fd; current_class := current_class fd;
     stream := stream fd; subjects := subjects fd; grades := grades fd;
     interests := interests fd; strengths := strengths fd; career_goals := v |}.

(** [arr.includes(x)] *)
Definition includes (x : string) (arr : list string) : bool := bool_decide (x ∈ arr).

(** The array a check box writes back: [[...arr, x]] when it was checked,
    [arr.filter(i => i !== x)] when it was unchecked. *)
Definition checked_change (x : string) (checked : bool) (arr : list string) : list string :=
  if checked then arr ++ [x] else filter (fun i => i ≠ x) arr.

(** [onCheckedChange] of an interest and of a strength check box. *)
Definition onCheckedChange_interest
    (interest : string) (checked : bool) (fd : FormData) : FormData :=
  with_interests (checked_change interest checked (interests fd)) fd.
Definition onCheckedChange_strength
    (strength : string) (checked : bool) (fd : FormData) : FormData :=
  with_strengths (checked_change strength checked (strengths fd)) fd.

(** A click on a check box: the box reports the negation of its
    [checked] property, which is [includes]. *)
Definition toggle (x : string) (arr : list string) : list string :=
  checked_change x (negb (includes x arr)) arr.

(** The selection an array of check-box values stands for: the spec's
    set of interests, or of strengths. *)
Definition selection (arr : list string) : gset string := list_to_set arr.

(** The academic level is the initial empty string or an offered value. *)
Definition level_or_empty (v : string) : Prop := v = "" ∨ v ∈ academic_levels.

(** The controls of the form. *)
Inductive Event :=
| PickAcademicLevel (v : string)
| PickCurrentClass (v : string)
| PickStream (v : string)
| ClickInterest (interest : string)
| ClickStrength (strength : string)
| TypeCareerGoals (v : string).

(** A control can be used when it is rendered and offers the value. *)
Definition enabled (e : Event) (fd : FormData) : bool :=
  match e with
  | PickAcademicLevel v => includes v academic_levels
  | PickCurrentClass v => String.eqb (academic_level fd) "high_school" && includes v classes
  | PickStream v => includes v streams
  | ClickInterest i => includes i interests_options
  | ClickStrength s => includes s strengths_options
  | TypeCareerGoals _ => true
  end.

Definition handle (e : Event) (fd : FormData) : FormData :=
  match e with
  | PickAcademicLevel v => with_academic_level v fd
  | PickCurrentClass v => with_current_class v fd
  | PickStream v => with_stream v fd
  | ClickInterest i => onCheckedChange_interest i (negb (includes i (interests fd))) fd
  | ClickStrength s => onCheckedChange_strength s (negb (includes s (strengths fd))) fd
  | TypeCareerGoals v => with_career_goals v fd
  end.

(** [handleSubmit] up to its [await]: the new state and the body of the
    [POST /profile] request, which is issued on every call. *)
Definition handleSubmit (s : State) : State * Profile :=
  (setIsLoading true s,
   <["user_id" := JStr "current_user"]> (to_object (formData s))).

(** [handleSubmit] after its [await]: the new state and the argument of
    [onProfileUpdate], if it is called.  [captured] is the [formData] of
    the render whose closure issued the request. *)
Definition handleSubmit_resume
    (captured : FormData) (r : Response unit) (s : State) : State * option Profile :=
  match r with
  | Ok _ => (setIsLoading false s, Some (to_object captured))
  | Failed _ => (setIsLoading false s, None)
  end.

End Form.

(** ** [RecommendationsView] *)

Module Recs.
Import Js Data.

Record State := { recommendations : option Recommendation; isLoading : bool }.

Definition mount : State := {| recommendations := None; isLoading := false |}.

Definition setRecommendations (v : option Recommendation) (s : State) : State :=
  {| recommendations := v; isLoading := isLoading s |}.
Definition setIsLoading (v : bool) (s : State) : State :=
  {| recommendations := recommendations s; isLoading := v |}.

(** [const {user_id, updated_at, ...profileData} = profile] *)
Definition profileData (profile : Profile) : Profile :=
  delete "updated_at" (delete "user_id" profile).

(** [generateRecommendations] up to its [await]: the new state and the
    body of the [POST /assessment/analyze] request, if one is issued. *)
Definition generateRecommendations
    (profile : option Profile) (s : State) : State * option Profile :=
  match profile with
  | None => (s, None)
  | Some p => (setIsLoading true s, Some (profileData p))
  end.

(** [generateRecommendations] after its [await]. *)
Definition generateRecommendations_resume (r : Response Recommendation) (s : State) : State :=
  match r with
  | Ok data => setIsLoading false (setRecommendations (Some data) s)
  | Failed _ => setIsLoading false s
  end.

(** [onClick] of [generate-recommendations-btn] and of
    [regenerate-recommendations-btn]. *)
Definition generate_onClick := generateRecommendations.
Definition regenerate_onClick := generateRecommendations.

(** What the view presents. *)
Inductive View :=
| NoProfileCard
| GenerateButton (disabled : bool)
| AnalysisResult (text : string) (regenerate_disabled : bool).

Definition render (profile : option Profile) (s : State) : View :=
  match profile with
  | None => NoProfileCard
  | Some _ =>
      match recommendations s with
      | None => GenerateButton (isLoading s)
      | Some r => AnalysisResult (analysis r) (isLoading s)
      end
  end.

End Recs.

(** ** The running application

    One [AuthProvider], and below it either the landing page or a mounted
    [Dashboard] with its [AssessmentForm] and [RecommendationsView].  A
    component instance is identified by a number, so that a response that
    arrives after its component was unmounted is recognised: React drops
    the state updates of an unmounted instance.

    [keep] says whether the [Tabs] component keeps the content of the
    inactive tabs mounted.  [Tabs] is imported from
    [./components/ui/tabs]; every result below holds for both answers. *)

Module App.
Import Js Data Auth.

(** A mounted [Dashboard] and its two stateful children. *)
Record Tree := {
  dash_id : nat; dash : Dash.State;
  form_id : nat; form : Form.State;
  view_id : nat; view : Recs.State;
}.

(** An outstanding request, with what its continuation holds on to:
    the instances whose setters it will call and the captured values. *)
Inductive Request :=
| GetProfile (d : nat)
| GetChatHistory (d : nat)
| PostChat (d : nat) (captured : Dash.State) (message : string)
| PostProfile (d f : nat) (captured : Form.FormData) (body : Profile)
| PostAnalyze (v : nat) (body : Profile).

Inductive Reply :=
| ProfileReply (r : Response (option Profile))
| HistoryReply (r : Response (list Turn))
| ChatReply (r : Response string) (now : string)
| SaveReply (r : Response unit)
| AnalyzeReply (r : Response Recommendation).

Record World := {
  session : Session;
  fresh : nat;
  tree : option Tree;
  pending : list Request;
}.

(** Process start at the landing path: the session is restored, nothing
    else exists yet.  The location of the router is not part of the
    world: a start at [/dashboard], where [Dashboard] is mounted and
    runs its mount effect before its guard redirects, is left out. *)
Definition boot (ls : gmap string string) : World :=
  {| session := AuthProvider ls; fresh := 0; tree := None; pending := [] |}.

Inductive Event :=
| ELogin (userData : Principal) (userToken : string)
| ELogout
| ETab (value : string)
| EForm (e : Form.Event)
| ESubmit
| EGenerate
| EChatInput (value : string)
| EChatKey (e : Chat.KeyEvent)
| EChatSend
| ESettle (n : nat) (r : Reply).

Definition tabs : list string := ["assessment"; "recommendations"; "chat"].

Definition on_tab (t : string) (tr : Tree) : bool :=
  String.eqb (Dash.activeTab (dash tr)) t.

Definition with_dash (d : Dash.State) (tr : Tree) : Tree :=
  {| dash_id := dash_id tr; dash := d; form_id := form_id tr; form := form tr;
     view_id := view_id tr; view := view tr |}.
Definition with_form (f : Form.State) (tr : Tree) : Tree :=
  {| dash_id := dash_id tr; dash := dash tr; form_id := form_id tr; form := f;
     view_id := view_id tr; view := view tr |}.
Definition with_view (v : Recs.State) (tr : Tree) : Tree :=
  {| dash_id := dash_id tr; dash := dash tr; form_id := form_id tr; form := form tr;
     view_id := view_id tr; view := v |}.

(** The world with the tree replaced and further requests issued. *)
Definition update (tr : Tree) (issued : list Request) (w : World) : World :=
  {| session := session w; fresh := fresh w; tree := Some tr;
     pending := pending w ++ issued |}.

(** [Dashboard] is mounted: fresh state for it and its children, and the
    mount effect issues [fetchProfile()] and [fetchChatHistory()]. *)
Definition mount_dashboard (s : Session) (w : World) : World :=
  let n := fresh w in
  {| session := s; fresh := n + 3;
     tree := Some {| dash_id := n; dash := Dash.mount;
                     form_id := n + 1; form := Form.mount;
                     view_id := n + 2; view := Recs.mount |};
     pending := pending w ++ [GetProfile n; GetChatHistory n] |}.

(** [onValueChange={setActiveTab}]; without [keep], the tab contents
    are mounted afresh. *)
Definition change_tab (keep : bool) (t : string) (tr : Tree) (w : World) : World :=
  if on_tab t tr then w
  else if keep then update (with_dash (Dash.setActiveTab t (dash tr)) tr) [] w
  else
    let n := fresh w in
    {| session := session w; fresh := n + 2;
       tree := Some {| dash_id := dash_id tr; dash := Dash.setActiveTab t (dash tr);
                       form_id := n; form := Form.mount;
                       view_id := n + 1; view := Recs.mount |};
       pending := pending w |}.

(** [onSend]: [sendChatMessage] of the current render. *)
Definition onSend (tr : Tree) (w : World) : World :=
  let '(d, req) := Dash.sendChatMessage (dash tr) in
  update (with_dash d tr)
    (match req with Some m => [PostChat (dash_id tr) (dash tr) m] | None => [] end) w.

(** Does the reply answer the request? *)
Definition answers (req : Request) (r : Reply) : bool :=
  match req, r with
  | GetProfile _, ProfileReply _
  | GetChatHistory _, HistoryReply _
  | PostChat _ _ _, ChatReply _ _
  | PostProfile _ _ _ _, SaveReply _
  | PostAnalyze _ _, AnalyzeReply _ => true
  | _, _ => false
  end.

(** The continuation of a settled request runs; a setter of an instance
    that is no longer mounted has no effect. *)
Definition resume (req : Request) (r : Reply) (tr : Tree) : Tree :=
  match req, r with
  | GetProfile d, ProfileReply r =>
      if decide (d = dash_id tr)
      then with_dash (Dash.fetchProfile_resume r (dash tr)) tr else tr
  | GetChatHistory d, HistoryReply r =>
      if decide (d = dash_id tr)
      then with_dash (Dash.fetchChatHistory_resume r (dash tr)) tr else tr
  | PostChat d captured _, ChatReply r now =>
      if decide (d = dash_id tr)
      then with_dash (Dash.sendChatMessage_resume captured r now (dash tr)) tr else tr
  | PostProfile d f captured _, SaveReply r =>
      let '(fs, upd) := Form.handleSubmit_resume captured r (form tr) in
      let tr1 :=
        match upd with
        | Some p => if decide (d = dash_id tr)
                    then with_dash (Dash.setProfile (Some p) (dash tr)) tr else tr
        | None => tr
        end in
      if decide (f = form_id tr1) then with_form fs tr1 else tr1
  | PostAnalyze v _, AnalyzeReply r =>
      if decide (v = view_id tr)
      then with_view (Recs.generateRecommendations_resume r (view tr)) tr else tr
  | _, _ => tr
  end.

(** The [n]-th outstanding request settles with [r]. *)
Definition settle (n : nat) (r : Reply) (w : World) : option World :=
  match pending w !! n with
  | None => None
  | Some req =>
      if answers req r then
        Some {| session := session w; fresh := fresh w;
                tree := resume req r <$> tree w;
                pending := delete n (pending w) |}
      else None
  end.

(** One event: [None] when the event cannot happen in [w] (its control
    is not rendered or is disabled, or no such request is outstanding). *)
Definition fire (keep : bool) (e : Event) (w : World) : option World :=
  match e, tree w with
  | ELogin u t, Some _ =>
      Some {| session := login u t (session w); fresh := fresh w;
              tree := tree w; pending := pending w |}
  | ELogin u t, None => Some (mount_dashboard (login u t (session w)) w)
  | ELogout, Some _ =>
      Some {| session := logout (session w); fresh := fresh w;
              tree := None; pending := pending w |}
  | ETab t, Some tr =>
      if Form.includes t tabs then Some (change_tab keep t tr w) else None
  | EForm e, Some tr =>
      if on_tab "assessment" tr && Form.enabled e (Form.formData (form tr))
      then Some (update (with_form (Form.setFormData
                   (Form.handle e (Form.formData (form tr))) (form tr)) tr) [] w)
      else None
  | ESubmit, Some tr =>
      if on_tab "assessment" tr && negb (Form.isLoading (form tr))
      then let '(fs, body) := Form.handleSubmit (form tr) in
           Some (update (with_form fs tr)
                   [PostProfile (dash_id tr) (form_id tr) (Form.formData (form tr)) body] w)
      else None
  | EGenerate, Some tr =>
      if on_tab "recommendations" tr && negb (Recs.isLoading (view tr))
      then match Recs.generateRecommendations (Dash.profile (dash tr)) (view tr) with
           | (vs, Some body) =>
               Some (update (with_view vs tr) [PostAnalyze (view_id tr) body] w)
           | (_, None) => None
           end
      else None
  | EChatInput v, Some tr =>
      if on_tab "chat" tr && negb (Chat.input_disabled (dash tr))
      then Some (update (with_dash (Dash.setChatInput v (dash tr)) tr) [] w)
      else None
  | EChatKey k, Some tr =>
      if on_tab "chat" tr && negb (Chat.input_disabled (dash tr))
      then Some (if Chat.handleKeyPress k then onSend tr w else w)
      else None
  | EChatSend, Some tr =>
      if on_tab "chat" tr && negb (Chat.send_disabled (dash tr))
      then Some (onSend tr w)
      else None
  | ESettle n r, _ => settle n r w
  | _, None => None
  end.

(** A history of events, oldest first; [None] if one of them cannot
    happen where it stands. *)
Fixpoint exec (keep : bool) (es : list Event) (w : World) : option World :=
  match es with
  | [] => Some w
  | e :: es' =>
      match fire keep e w with
      | Some w' => exec keep es' w'
      | None => None
      end
  end.

(** [POST /chat] requests among the outstanding ones: all of them, and
    those issued by the [Dashboard] instance [d]. *)
Definition is_send (req : Request) : bool :=
  match req with PostChat _ _ _ => true | _ => false end.
Definition is_send_of (d : nat) (req : Request) : bool :=
  match req with PostChat d' _ _ => Nat.eqb d' d | _ => false end.

Definition count {A} (f : A → bool) (l : list A) : nat := length (List.filter f l).

Definition sends_in_flight (w : World) : nat := count is_send (pending w).
Definition sends_in_flight_of (d : nat) (w : World) : nat := count (is_send_of d) (pending w).

(** Every outstanding [POST /chat] was issued by an instance numbered
    below [n]. *)
Definition send_ids_below (n : nat) (l : list Request) : Prop :=
  Forall (fun req => match req with PostChat d _ _ => d < n | _ => True end) l.

(** The mounted [Dashboard] has a send in flight exactly while its
    [isLoading] is set, and then exactly one. *)
Definition serialized (w : World) : Prop :=
  send_ids_below (fresh w) (pending w) ∧
  ∀ tr, tree w = Some tr →
    dash_id tr < fresh w ∧
    sends_in_flight_of (dash_id tr) w = if Dash.isLoading (dash tr) then 1 else 0.

(** The form, and every outstanding save, holds an academic level that
    is empty or offered; the body of an outstanding save is the captured
    form data with [user_id] added. *)
Definition levels_from_select (w : World) : Prop :=
  (∀ tr, tree w = Some tr →
     Form.level_or_empty (Form.academic_level (Form.formData (form tr)))) ∧
  Forall (fun req =>
            match req with
            | PostProfile _ _ captured body =>
                Form.level_or_empty (Form.academic_level captured) ∧
                body = <["user_id" := JStr "current_user"]> (Form.to_object captured)
            | _ => True
            end) (pending w).

(** The [academic_level] of the save that is [n]-th among the
    outstanding requests. *)
Definition saved_level (n : nat) (w : World) : option JValue :=
  match pending w !! n with
  | Some (PostProfile _ _ _ body) => body !! "academic_level"
  | _ => None
  end.

(** What the recommendations tab presents, and from which profile. *)
Definition recommendations_pane (w : World) : option Recs.View :=
  tr ← tree w; Some (Recs.render (Dash.profile (dash tr)) (view tr)).
Definition current_profile (w : World) : option Profile :=
  tr ← tree w; Dash.profile (dash tr).

(** What the chat tab shows. *)
Definition chat_pane (w : World) : option Chat.Pane :=
  tr ← tree w; Some (Chat.render (Dash.chatMessages (dash tr))).

End App.

(** ** Sample data *)

Module Sample.
Import Js Data Auth App.

Definition asha : Principal :=
  {| id := "u-17"; name := "Asha Rao"; email := "asha@example.org" |}.

(** A profile as the profile store returns it. *)
Definition stored_profile : Profile :=
  <["user_id" := JStr "u-17"]>
    (<["updated_at" := JStr "2024-05-01T09:00:00.000Z"]>
       (Form.to_object
          {| Form.academic_level := "high_school"; Form.current_class := "class_10";
             Form.stream := "science"; Form.subjects := []; Form.grades := [];
             Form.interests := ["Technology"]; Form.strengths := ["Analysis"];
             Form.career_goals := "" |})).

Definition advice : Recommendation := {| analysis := "Consider engineering." |}.

(** Signed in, on the chat tab, "hi" typed and sent, no reply yet. *)
Definition typed : Dash.State :=
  {| Dash.activeTab := "chat"; Dash.profile := None; Dash.chatMessages := [];
     Dash.chatInput := "hi"; Dash.isLoading := false |}.

Definition sending_tree : Tree :=
  {| dash_id := 0; dash := Dash.setIsLoading true typed;
     form_id := 1; form := Form.mount; view_id := 2; view := Recs.mount |}.

Definition sending : World :=
  {| session := login asha "abc" (AuthProvider ∅); fresh := 3;
     tree := Some sending_tree;
     pending := [GetProfile 0; GetChatHistory 0; PostChat 0 typed "hi"] |}.

Definition send_once : list Event :=
  [ELogin asha "abc"; ETab "chat"; EChatInput "hi"; EChatSend].

(** The same, then signed out and in again, "yo" typed and sent. *)
Definition send_logout_login_send : list Event :=
  send_once ++ [ELogout; ELogin asha "abc"; ETab "chat"; EChatInput "yo"; EChatSend].

(** Signed in, the stored profile loaded; a save is submitted and, while
    it is outstanding, a recommendation is generated from the stored
    profile; then the save succeeds. *)
Definition generate_during_save : list Event :=
  [ELogin asha "abc";
   ESettle 0 (ProfileReply (Ok (Some stored_profile)));
   EForm (Form.PickAcademicLevel "undergraduate");
   ESubmit;
   ETab "recommendations";
   EGenerate;
   ESettle 2 (AnalyzeReply (Ok advice));
   ESettle 1 (SaveReply (Ok ()))].

(** Just signed in: the [Dashboard] is mounted and its two mount
    requests are outstanding. *)
Definition signed_in : World :=
  mount_dashboard (login asha "abc" (AuthProvider ∅)) (boot ∅).

(** The same after the history request has failed. *)
Definition history_failed : World :=
  {| session := session signed_in; fresh := 3; tree := tree signed_in;
     pending := [GetProfile 0] |}.

(** The world in which the last event of [generate_during_save] takes
    place, and the world it leaves. *)
Definition advised : World :=
  default signed_in (exec true (take 7 generate_during_save) (boot ∅)).
Definition advised_and_saved : World :=
  default signed_in (exec true generate_during_save (boot ∅)).
Definition tree_of (w : World) : Tree := default sending_tree (tree w).

(** Signed in, the history request fails with status 401. *)
Definition history_unauthorized : list Event :=
  [ELogin asha "abc"; ESettle 1 (HistoryReply (Failed (Some 401%Z)))].

End Sample.

(** ** Following redirects *)

Module Navigation.
Import Js Auth Router.

(** The element the router settles on from [path]: a [Navigate] is
    followed, at most [hops] times. *)
Fixpoint follow (hops : nat) (path : string) (s : Session) : option Element :=
  match Routes path s with
  | Some (Navigate to) =>
      match hops with
      | O => Some (Navigate to)
      | S hops' => follow hops' to s
      end
  | other => other
  end.

End Navigation.

(** ** [AuthModal] *)

Module AuthModal.
Import Js Auth.

Record FormData := { name : string; email : string; password : string }.

Record State := { isLogin : bool; formData : FormData; isLoading : bool }.

Definition mount : State :=
  {| isLogin := true; formData := {| name := ""; email := ""; password := "" |};
     isLoading := false |}.

Definition setIsLogin (v : bool) (s : State) : State :=
  {| isLogin := v; formData := formData s; isLoading := isLoading s |}.
Definition setFormData (v : FormData) (s : State) : State :=
  {| isLogin := isLogin s; formData := v; isLoading := isLoading s |}.
Definition setIsLoading (v : bool) (s : State) : State :=
  {| isLogin := isLogin s; formData := formData s; isLoading := v |}.

(** [onChange] of the three inputs: [{...formData, name: e.target.value}]
    and its siblings. *)
Definition type_name (v : string) (s : State) : State :=
  setFormData {| name := v; email := email (formData s);
                 password := password (formData s) |} s.
Definition type_email (v : string) (s : State) : State :=
  setFormData {| name := name (formData s); email := v;
                 password := password (formData s) |} s.
Definition type_password (v : string) (s : State) : State :=
  setFormData {| name := name (formData s); email := email (formData s);
                 password := v |} s.

(** [onClick] of [auth-toggle-btn]: [setIsLogin(!isLogin)]. *)
Definition toggle_mode (s : State) : State := setIsLogin (negb (isLogin s)) s.

(** [formData] as the object it is. *)
Definition to_object (fd : FormData) : gmap string JValue :=
  list_to_map [("name", JStr (name fd)); ("email", JStr (email fd));
               ("password", JStr (password fd))].

Record AuthRequest := { endpoint : string; payload : gmap string JValue }.

(** [handleSubmit] up to its [await]. *)
Definition handleSubmit (s : State) : State * AuthRequest :=
  (setIsLoading true s,
   {| endpoint := if isLogin s then "/auth/login" else "/auth/register";
      payload := if isLogin s
                 then list_to_map [("email", JStr (email (formData s)));
                                   ("password", JStr (password (formData s)))]
                 else to_object (formData s) |}).

(** The awaited call resolves with [response.data.user] and
    [response.data.access_token], or rejects; [detail] is
    [error.response?.data?.detail], absent when there is none. *)
Inductive Outcome :=
| Authenticated (userData : Principal) (access_token : string)
| Rejected (detail : option string).

(** What [handleSubmit] has done once it returns: the modal's state, the
    session, whether [onClose] was called, and the text of the [alert]. *)
Record Result := {
  modal : State;
  after : Session;
  closed : bool;
  alerted : option string;
}.

(** [detail || 'Authentication failed'] *)
Definition message (detail : option string) : string :=
  match detail with
  | Some d => if truthy d then d else "Authentication failed"
  | None => "Authentication failed"
  end.

(** [handleSubmit] after its [await]. *)
Definition handleSubmit_resume (o : Outcome) (s : State) (ses : Session) : Result :=
  match o with
  | Authenticated u tok =>
      {| modal := setIsLoading false s; after := login u tok ses;
         closed := true; alerted := None |}
  | Rejected detail =>
      {| modal := setIsLoading false s; after := ses;
         closed := false; alerted := Some (message detail) |}
  end.

End AuthModal.

(** ** The avatar of the dashboard header

    [<AvatarFallback>{user.name.split(' ').map(n => n[0]).join('')}</AvatarFallback>].
    A character is a character of the embedding's strings; for a name
    outside the ASCII range JavaScript's [n[0]] is a UTF-16 code unit. *)

Module Avatar.

(** [s.split(' ')]: the pieces between the spaces, empty ones included. *)
Fixpoint split (s : string) : list string :=
  match s with
  | EmptyString => [EmptyString]
  | String c s' =>
      if Ascii.eqb c Ascii.Space then EmptyString :: split s'
      else match split s' with
           | p :: ps => String c p :: ps
           | [] => [String c EmptyString]
           end
  end.

(** [n[0]], which [join] writes as nothing when it is [undefined]. *)
Definition first (n : string) : string :=
  match n with
  | String c _ => String c EmptyString
  | EmptyString => EmptyString
  end.

(** [parts.join('')] *)
Definition join (parts : list string) : string :=
  foldr String.append EmptyString parts.

(** [user.name.split(' ').map(n => n[0]).join('')] *)
Definition initials (name : string) : string := join (map first (split name)).

(** The number of words of a name: its non-empty pieces. *)
Definition words (name : string) : nat :=
  length (List.filter (fun p => negb (String.eqb p EmptyString)) (split name)).

End Avatar.

(** ** Further invariants of the running application *)

Module Inv.
Import Js Data Auth App.

(** The persisted token is the session's token, and the bearer header is
    armed with it: always after a transition, and after the restore
    whenever the restored token is not the empty string. *)
Definition in_step (s : Session) : Prop :=
  getItem "token" (localStorage s) = token s ∧
  (token s = None → headers s !! "Authorization" = None) ∧
  (∀ t, token s = Some t → truthy t = true →
        headers s !! "Authorization" = Some (Bearer t)).

(** An outstanding send of the mounted [Dashboard] carries the text that
    is still in the input, which is not blank. *)
Definition send_matches (w : World) : Prop :=
  ∀ tr captured m,
    tree w = Some tr → PostChat (dash_id tr) captured m ∈ pending w →
    Dash.chatInput (dash tr) = m ∧ Dash.chatInput captured = m ∧
    truthy (trim m) = true ∧ Dash.isLoading captured = false.

Definition is_save_of (f : nat) (req : Request) : bool :=
  match req with PostProfile _ f' _ _ => Nat.eqb f' f | _ => false end.
Definition is_analyze_of (v : nat) (req : Request) : bool :=
  match req with PostAnalyze v' _ => Nat.eqb v' v | _ => false end.

Definition saves_in_flight_of (f : nat) (w : World) : nat :=
  count (is_save_of f) (pending w).
Definition analyses_in_flight_of (v : nat) (w : World) : nat :=
  count (is_analyze_of v) (pending w).

(** Every outstanding save and analysis was issued by an instance
    numbered below [n]. *)
Definition child_ids_below (n : nat) (l : list Request) : Prop :=
  Forall (fun req =>
            match req with
            | PostProfile _ f _ _ => f < n
            | PostAnalyze v _ => v < n
            | _ => True
            end) l.

(** Neither a save nor an analysis. *)
Definition quiet (req : Request) : Prop :=
  match req with PostProfile _ _ _ _ | PostAnalyze _ _ => False | _ => True end.

(** The mounted form has a save in flight exactly while its [isLoading]
    is set, and the mounted view an analysis exactly while its
    [isLoading] is set; then exactly one. *)
Definition single_flight (w : World) : Prop :=
  child_ids_below (fresh w) (pending w) ∧
  ∀ tr, tree w = Some tr →
    form_id tr < fresh w ∧ view_id tr < fresh w ∧
    saves_in_flight_of (form_id tr) w = (if Form.isLoading (form tr) then 1 else 0) ∧
    analyses_in_flight_of (view_id tr) w = (if Recs.isLoading (view tr) then 1 else 0).

(** What the controls of the form can make of its data. *)
Definition well_formed (fd : Form.FormData) : Prop :=
  Form.level_or_empty (Form.academic_level fd) ∧
  (Form.current_class fd = "" ∨ Form.current_class fd ∈ Form.classes) ∧
  (Form.stream fd = "" ∨ Form.stream fd ∈ Form.streams) ∧
  Form.subjects fd = [] ∧ Form.grades fd = [] ∧
  NoDup (Form.interests fd) ∧ Form.interests fd ⊆ Form.interests_options ∧
  NoDup (Form.strengths fd) ∧ Form.strengths fd ⊆ Form.strengths_options.

(** The form, and every outstanding save, holds well-formed data. *)
Definition forms_well_formed (w : World) : Prop :=
  (∀ tr, tree w = Some tr → well_formed (Form.formData (form tr))) ∧
  Forall (fun req =>
            match req with
            | PostProfile _ _ captured _ => well_formed captured
            | _ => True
            end) (pending w).

(** Every character of the input is an ASCII character. *)
Definition ascii_only (s : string) : bool :=
  forallb (fun a => Nat.ltb (Ascii.nat_of_ascii a) 128) (String.list_ascii_of_string s).

(** The input consists of white space only (or of nothing). *)
Definition blank (s : string) : bool :=
  forallb is_space (String.list_ascii_of_string s).

(** The turns the chat pane would show after the history of events. *)
Definition shown_turns (w : World) : option (list Turn) :=
  tr ← tree w; Some (Dash.chatMessages (dash tr)).

End Inv.

(** ** Further sample data *)

Module Scenario.
Import Js Data Auth App.

(** Signed in, on the chat tab, "hi" typed. *)
Definition typing : World :=
  default Sample.signed_in
    (exec true [ELogin Sample.asha "abc"; ETab "chat"; EChatInput "hi"] (boot ∅)).


(** A save is outstanding; later, an analysis as well. *)
Definition saving : World :=
  default Sample.signed_in (exec true (take 4 Sample.generate_during_save) (boot ∅)).
Definition analysing : World :=
  default Sample.signed_in (exec true (take 6 Sample.generate_during_save) (boot ∅)).

Definition earlier_turn : Turn :=
  {| message := "q"; response := "a"; timestamp := "2024-04-30T08:00:00.000Z" |}.

(** A send was issued before the history arrived; the history arrives,
    then the reply. *)
Definition send_before_history
    (u : Principal) (t m : string) (data : list Turn) (reply now : string) : list Event :=
  [ELogin u t; ETab "chat"; EChatInput m; EChatSend;
   ESettle 1 (HistoryReply (Ok data)); ESettle 1 (ChatReply (Ok reply) now)].

End Scenario.

(** * Properties *)

(** ** Session store *)

Section SessionFacts.
Import Js Auth.

Lemma useEffect_token_user s : user (useEffect_token s) = user s.
Proof. unfold useEffect_token. destruct (token s) as [t|]; [destruct (truthy t)|]; done. Qed.

Lemma useEffect_token_token s : token (useEffect_token s) = token s.
Proof. unfold useEffect_token. destruct (token s) as [t|] eqn:E; [destruct (truthy t)|]; done. Qed.

Lemma useEffect_token_localStorage s : localStorage (useEffect_token s) = localStorage s.
Proof. unfold useEffect_token. destruct (token s) as [t|]; [destruct (truthy t)|]; done. Qed.

Lemma commit_user s s' : user (commit s s') = user s'.
Proof. unfold commit. case_decide; [done | apply useEffect_token_user]. Qed.

Lemma commit_token s s' : token (commit s s') = token s'.
Proof. unfold commit. case_decide; [done | apply useEffect_token_token]. Qed.

Lemma commit_localStorage s s' : localStorage (commit s s') = localStorage s'.
Proof. unfold commit. case_decide; [done | apply useEffect_token_localStorage]. Qed.

(** The effect only ever re-arms the header the transition has armed. *)
Lemma commit_headers_armed s s' t :
  token s' = Some t → headers s' !! "Authorization" = Some (Bearer t) →
  headers (commit s s') !! "Authorization" = Some (Bearer t).
Proof.
  intros Ht Hh. unfold commit. case_decide; [done|].
  unfold useEffect_token. rewrite Ht. destruct (truthy t); [|done].
  simpl. apply lookup_insert_eq.
Qed.

Lemma commit_headers_disarmed s s' :
  token s' = None → headers (commit s s') = headers s'.
Proof.
  intros Ht. unfold commit. case_decide; [done|].
  unfold useEffect_token. by rewrite Ht.
Qed.

Lemma login_spec u t s :
  let s' := login u t s in
  user s' = Some u ∧ token s' = Some t ∧
  getItem "token" (localStorage s') = Some t ∧
  headers s' !! "Authorization" = Some (Bearer t).
Proof.
  unfold login. rewrite commit_user, commit_token, commit_localStorage. simpl.
  repeat split.
  - apply lookup_insert_eq.
  - apply commit_headers_armed; [done|]. apply lookup_insert_eq.
Qed.

Lemma logout_spec s :
  let s' := logout s in
  user s' = None ∧ token s' = None ∧
  getItem "token" (localStorage s') = None ∧
  headers s' !! "Authorization" = None.
Proof.
  unfold logout. rewrite commit_user, commit_token, commit_localStorage. simpl.
  repeat split.
  - apply lookup_delete_eq.
  - rewrite commit_headers_disarmed by done. apply lookup_delete_eq.
Qed.

Lemma step_invariant t s : principal_iff_token (step t s) = true.
Proof.
  unfold principal_iff_token. apply bool_decide_eq_true.
  destruct t as [u tok|]; simpl.
  - destruct (login_spec u tok s) as (-> & -> & _). done.
  - destruct (logout_spec s) as (-> & -> & _). done.
Qed.

Lemma run_snoc ts t s : run (ts ++ [t]) s = step t (run ts s).
Proof. unfold run. by rewrite foldl_app. Qed.

Lemma AuthProvider_user ls : user (AuthProvider ls) = None.
Proof. unfold AuthProvider. by rewrite useEffect_token_user. Qed.

Lemma AuthProvider_token ls : token (AuthProvider ls) = getItem "token" ls.
Proof. unfold AuthProvider. by rewrite useEffect_token_token. Qed.

End SessionFacts.

Section SessionClaims.
Import Js Auth Router.

(** C1, as the claim states it, fails: the session restored from a
    persisted token is a reachable session state (no transition taken
    yet) in which [token] is present and [user], the principal, is
    absent. *)
Lemma C1_restored_session_breaks_invariant :
  let s := run [] (AuthProvider {["token" := "abc"]}) in
  token s = Some "abc" ∧ user s = None ∧ principal_iff_token s = false.
Proof. vm_compute. done. Qed.

(** C1, amended: in every reachable session state a present principal
    comes with a present token.  The full invariant (principal present
    iff token present) holds in every state reached by at least one
    login or logout, and in every state of a session created with no
    persisted token.  A login sets principal and token together and
    persists the issued token; a logout clears both and erases the
    persisted token.  Restore sets the token alone. *)
Theorem C1_session_invariant (ls : gmap string string) (ts : list Transition) :
  let s := run ts (AuthProvider ls) in
  (present (user s) = true → present (token s) = true) ∧
  (ts ≠ [] ∨ getItem "token" ls = None → principal_iff_token s = true) ∧
  (ts = [] → user s = None ∧ token s = getItem "token" ls) ∧
  (∀ u t, let s' := step (Login u t) s in
          user s' = Some u ∧ token s' = Some t ∧
          getItem "token" (localStorage s') = Some t) ∧
  (let s' := step Logout s in
   user s' = None ∧ token s' = None ∧ getItem "token" (localStorage s') = None).
Proof.
  intros s.
  assert (Hlast : ts ≠ [] → principal_iff_token s = true).
  { subst s. destruct ts as [|t ts _] using rev_ind; [done|].
    intros _. rewrite run_snoc. apply step_invariant. }
  assert (Hnil : ts = [] → user s = None ∧ token s = getItem "token" ls).
  { intros ->. subst s. simpl. by rewrite AuthProvider_user, AuthProvider_token. }
  repeat split.
  - destruct ts as [|t0 ts'] eqn:E.
    + destruct Hnil as [-> _]; done.
    + rewrite <- E in *. assert (H : principal_iff_token s = true) by (apply Hlast; by subst).
      apply bool_decide_eq_true in H. congruence.
  - intros [H|H]; [by apply Hlast|].
    destruct ts as [|t0 ts'] eqn:E; [|apply Hlast; done].
    destruct Hnil as [Hu Ht]; [done|].
    unfold principal_iff_token. apply bool_decide_eq_true. by rewrite Hu, Ht, H.
  - by apply Hnil.
  - by apply Hnil.
  - apply (login_spec u t s).
  - apply (login_spec u t s).
  - apply (login_spec u t s).
  - apply (logout_spec s).
  - apply (logout_spec s).
  - apply (logout_spec s).
Qed.

(** C3, as the claim states it, fails: after the restore found a
    persisted token, and armed the bearer header with it, the guard of
    the protected view redirects to the landing view and the landing
    view is rendered, not redirected. *)
Lemma C3_restored_session_is_turned_away :
  let s := AuthProvider {["token" := "abc"]} in
  token s = Some "abc" ∧
  headers s !! "Authorization" = Some "Bearer abc" ∧
  Routes "/dashboard" s = Some (Navigate "/") ∧
  Routes "/" s = Some LandingView.
Proof. vm_compute. done. Qed.

(** C3, amended: the route guard is a function of the presence of
    [user], which a restore never sets.  After [restore()] found a
    persisted token the token is present and the bearer header is armed,
    but the guard redirects the protected view to the landing view and
    renders the landing view.  For every session: with [user] present the
    protected view is rendered and the landing view redirects to it;
    with [user] absent the protected view redirects to the landing
    view. *)
Theorem C3_route_guard (ls : gmap string string) (t : string) :
  getItem "token" ls = Some t → truthy t = true →
  let s := AuthProvider ls in
  (token s = Some t ∧ headers s !! "Authorization" = Some (Bearer t) ∧
   Dashboard s = Navigate "/" ∧ LandingPage s = LandingView) ∧
  (∀ s' u, user s' = Some u →
     Dashboard s' = DashboardView u ∧ LandingPage s' = Navigate "/dashboard") ∧
  (∀ s', user s' = None →
     Dashboard s' = Navigate "/" ∧ LandingPage s' = LandingView).
Proof.
  intros Hls Ht s. split; [|split].
  - subst s. rewrite AuthProvider_token. unfold Dashboard, LandingPage.
    rewrite AuthProvider_user. repeat split; [done|].
    unfold AuthProvider, useEffect_token. simpl. rewrite Hls, Ht. simpl.
    apply lookup_insert_eq.
  - intros s' u Hu. unfold Dashboard, LandingPage. by rewrite Hu.
  - intros s' Hu. unfold Dashboard, LandingPage. by rewrite Hu.
Qed.

Lemma C3_route_guard_witness :
  let s := AuthProvider {["token" := "abc"]} in
  (token s = Some "abc" ∧ headers s !! "Authorization" = Some (Bearer "abc") ∧
   Dashboard s = Navigate "/" ∧ LandingPage s = LandingView) ∧
  (∀ s' u, user s' = Some u →
     Dashboard s' = DashboardView u ∧ LandingPage s' = Navigate "/dashboard") ∧
  (∀ s', user s' = None →
     Dashboard s' = Navigate "/" ∧ LandingPage s' = LandingView).
Proof. apply (C3_route_guard {["token" := "abc"]} "abc"); vm_compute; reflexivity. Defined.

End SessionClaims.

(** ** Chat history *)

Section HistoryClaims.
Import Js Data.

Lemma ordered_app {A} (R : A → A → Prop) (l1 l2 : list A) :
  ordered R (l1 ++ l2) ↔
  ordered R l1 ∧ ordered R l2 ∧ Forall (fun x => Forall (R x) l2) l1.
Proof.
  induction l1 as [|x l1 IH]; simpl.
  - intuition constructor.
  - rewrite IH, Forall_app, Forall_cons. tauto.
Qed.

Lemma Forall_flip_singleton {A} (R : A → A → Prop) (x : A) (l : list A) :
  Forall (fun y => Forall (R y) [x]) l ↔ Forall (flip R x) l.
Proof.
  apply Forall_proper; [|done]. intros y.
  rewrite Forall_singleton. done.
Qed.

Lemma Forall_rev_iff {A} (P : A → Prop) (l : list A) :
  Forall P (rev l) ↔ Forall P l.
Proof.
  split; intros H; [|by apply List.Forall_rev].
  rewrite <- (rev_involutive l). by apply List.Forall_rev.
Qed.

(** Reversal turns one order into its converse. *)
Lemma ordered_rev {A} (R : A → A → Prop) (l : list A) :
  ordered R (rev l) ↔ ordered (flip R) l.
Proof.
  induction l as [|x l IH]; simpl; [done|].
  rewrite ordered_app, IH, Forall_flip_singleton, Forall_rev_iff. simpl.
  rewrite Forall_nil. tauto.
Qed.

(** C6, as the claim states it, fails: when the history endpoint returns
    two turns oldest first, the later one is displayed first. *)
Lemma C6_chronological_history_is_shown_latest_first :
  let t1 := {| message := "q1"; response := "a1"; timestamp := "2024-05-01T10:00:00.000Z" |} in
  let t2 := {| message := "q2"; response := "a2"; timestamp := "2024-05-01T10:05:00.000Z" |} in
  let shown := Dash.chatMessages (Dash.fetchChatHistory_resume (Ok [t1; t2]) Dash.mount) in
  String.ltb (timestamp t1) (timestamp t2) = true ∧
  shown = [t2; t1] ∧
  Chat.render shown = Chat.Bubbles [("q2", "a2"); ("q1", "a1")].
Proof. vm_compute. done. Qed.

(** C6, amended: the client displays the turns in the reverse of the
    order in which the history endpoint returned them, whatever that
    order is.  The earliest turn is therefore displayed first exactly
    when the endpoint returns the turns newest first. *)
Theorem C6_history_is_shown_reversed (data : list Turn) (s : Dash.State) :
  let shown := Dash.chatMessages (Dash.fetchChatHistory_resume (Ok data) s) in
  shown = rev data ∧
  (oldest_first shown ↔ newest_first data) ∧
  Chat.render shown =
    match data with
    | [] => Chat.Placeholder
    | _ => Chat.Bubbles (map (fun msg => (message msg, response msg)) (rev data))
    end.
Proof.
  simpl. split; [done|]. split.
  - unfold oldest_first, newest_first. apply ordered_rev.
  - unfold Chat.render. destruct (rev data) as [|x l] eqn:E.
    + apply (f_equal (@rev _)) in E. rewrite rev_involutive in E. by subst.
    + destruct data; [done|]. done.
Qed.

End HistoryClaims.

(** ** The running application *)

(** The guard of an event holds, or the event did not happen. *)
Ltac guarded := destruct (_ && _); [|done]; simpl.

(** The event happened: name the world it left. *)
Ltac fired := intros [= <-].

(** The request that settles, and that the reply answers it. *)
Ltac settled n r w :=
  unfold App.settle;
  let req := fresh "req" in
  destruct (App.pending w !! n) as [req|] eqn:?; [|done];
  destruct (App.answers req r) eqn:?; [|done];
  fired.

Section AppFacts.
Import Js Data Auth App.

(** A property that holds at the start and survives every event holds
    after every history. *)
Lemma exec_invariant (keep : bool) (P : World → Prop) :
  (∀ e w w', P w → fire keep e w = Some w' → P w') →
  ∀ es w w', P w → exec keep es w = Some w' → P w'.
Proof.
  intros Hstep es. induction es as [|e es IH]; intros w w' Hw; simpl.
  - intros [= <-]. done.
  - destruct (fire keep e w) as [w1|] eqn:E; [|done].
    apply IH. by eapply Hstep.
Qed.

Lemma count_app {A} (f : A → bool) (l1 l2 : list A) :
  count f (l1 ++ l2) = count f l1 + count f l2.
Proof. unfold count. by rewrite List.filter_app, length_app. Qed.

Lemma count_delete {A} (f : A → bool) (l : list A) (n : nat) (x : A) :
  l !! n = Some x →
  count f l = (if f x then 1 else 0) + count f (delete n l).
Proof.
  revert n. induction l as [|y l IH]; intros [|n]; simpl; try done.
  - intros [= ->]. unfold count. simpl. by destruct (f x).
  - intros H. specialize (IH _ H). unfold count in *. simpl.
    destruct (f y); simpl; lia.
Qed.

Lemma count_zero {A} (f : A → bool) (l : list A) :
  Forall (fun x => f x = false) l → count f l = 0.
Proof.
  induction 1 as [|x l Hx _ IH]; [done|].
  unfold count in *. simpl. by rewrite Hx.
Qed.

Lemma settle_session n r w w' : settle n r w = Some w' → session w' = session w.
Proof. settled n r w. done. Qed.

Lemma send_ids_below_mono (n m : nat) l :
  (n ≤ m)%nat → send_ids_below n l → send_ids_below m l.
Proof.
  intros Hnm H. unfold send_ids_below. eapply Forall_impl; [exact H|].
  intros [] ?; try done. simpl in *. lia.
Qed.

Lemma send_ids_below_fresh (n : nat) l :
  send_ids_below n l → count (is_send_of n) l = 0.
Proof.
  intros H. apply count_zero. eapply Forall_impl; [exact H|].
  intros [] Hd; simpl; try done. apply Nat.eqb_neq. lia.
Qed.

Lemma serialized_boot ls : serialized (boot ls).
Proof. split; [constructor | done]. Qed.

(** An event that keeps the [Dashboard] instance and its [isLoading],
    and issues no send, keeps the world serialized. *)
Lemma serialized_update w tr tr' issued :
  serialized w → tree w = Some tr →
  dash_id tr' = dash_id tr →
  Dash.isLoading (dash tr') = Dash.isLoading (dash tr) →
  Forall (fun req => is_send req = false) issued →
  serialized (update tr' issued w).
Proof.
  intros [Hids Htr] Etr Hid Hload Hissued. destruct (Htr _ Etr) as [Hlt Hcount].
  split; simpl.
  - unfold send_ids_below. apply Forall_app. split; [done|].
    eapply Forall_impl; [exact Hissued|]. by intros [].
  - intros ? [= <-]. rewrite Hid, Hload. split; [done|].
    unfold sends_in_flight_of in *. simpl. rewrite count_app, Hcount.
    rewrite (count_zero _ issued); [lia|].
    eapply Forall_impl; [exact Hissued|]. by intros [].
Qed.

Lemma serialized_onSend w tr :
  serialized w → tree w = Some tr → Dash.isLoading (dash tr) = false →
  serialized (onSend tr w).
Proof.
  intros Hw Etr Hload. unfold onSend, Dash.sendChatMessage.
  destruct (negb (truthy (trim (Dash.chatInput (dash tr))))).
  - by apply (serialized_update w tr).
  - destruct Hw as [Hids Htr]. destruct (Htr _ Etr) as [Hlt Hcount].
    rewrite Hload in Hcount. split; simpl.
    + apply Forall_app. split; [done|]. by repeat constructor.
    + intros ? [= <-]. simpl. split; [done|].
      unfold sends_in_flight_of in *. simpl. rewrite count_app, Hcount.
      unfold count. simpl. by rewrite Nat.eqb_refl.
Qed.

Lemma serialized_settle n r w w' :
  serialized w → settle n r w = Some w' → serialized w'.
Proof.
  intros [Hids Htr]. unfold settle.
  destruct (pending w !! n) as [req|] eqn:En; [|done].
  destruct (answers req r) eqn:Ea; [|done]. intros [= <-].
  split; simpl; [by apply Forall_delete|].
  intros tr'. destruct (tree w) as [tr|] eqn:Etr; [|done]. simpl. intros [= <-].
  destruct (Htr _ eq_refl) as [Hlt Hcount].
  unfold sends_in_flight_of in *. simpl.
  rewrite (count_delete _ _ _ _ En) in Hcount.
  destruct req, r; try done; simpl in *.
  - case_decide; [destruct r|]; done.
  - case_decide; [destruct r|]; done.
  - case_decide as Hd.
    + subst d. rewrite Nat.eqb_refl in Hcount.
      assert (count (is_send_of (dash_id tr)) (delete n (pending w)) = 0)
        by (destruct (Dash.isLoading (dash tr)); lia).
      destruct r; done.
    + apply Nat.eqb_neq in Hd. by rewrite Hd in Hcount.
  - destruct r; simpl; repeat case_decide; done.
  - case_decide; done.
Qed.

Lemma serialized_fire keep e w w' :
  serialized w → fire keep e w = Some w' → serialized w'.
Proof.
  intros Hw. pose proof Hw as [Hids Htr].
  destruct e; simpl; try (by apply serialized_settle);
    destruct (tree w) as [tr|] eqn:Etr; try done;
    try (destruct (Htr _ eq_refl) as [Hlt Hcount]).
  - (* login, dashboard mounted *)
    intros [= <-]. split; simpl; [done|]. intros ? [= <-]. by apply Htr.
  - (* login, dashboard not mounted *)
    intros [= <-]. unfold mount_dashboard. split; simpl.
    + apply Forall_app. split; [|by repeat constructor].
      eapply send_ids_below_mono; [|done]. lia.
    + intros ? [= <-]. simpl. split; [lia|].
      unfold sends_in_flight_of. simpl. rewrite count_app.
      by rewrite send_ids_below_fresh.
  - (* logout *)
    intros [= <-]. split; simpl; done.
  - (* tab *)
    destruct (Form.includes value tabs); [|done]. intros [= <-].
    unfold change_tab. destruct (on_tab value tr); [done|]. destruct keep.
    + by apply (serialized_update w tr).
    + split; simpl.
      * eapply send_ids_below_mono; [|done]. lia.
      * intros ? [= <-]. simpl. split; [lia|]. done.
  - (* form control *)
    guarded. fired. by apply (serialized_update w tr).
  - (* submit *)
    guarded. fired.
    apply (serialized_update w tr); try done. by repeat constructor.
  - (* generate *)
    guarded.
    destruct (Dash.profile (dash tr)); simpl; [|done]. intros [= <-].
    apply (serialized_update w tr); try done. by repeat constructor.
  - (* chat input *)
    guarded. fired. by apply (serialized_update w tr).
  - (* chat key *)
    destruct (on_tab _ _); [|done]. unfold Chat.input_disabled. simpl.
    destruct (Dash.isLoading (dash tr)) eqn:El; [done|]. simpl. intros [= <-].
    destruct (Chat.handleKeyPress e); [|done]. by apply serialized_onSend.
  - (* send button *)
    destruct (on_tab _ _); [|done]. unfold Chat.send_disabled. simpl.
    destruct (Dash.isLoading (dash tr)) eqn:El; [done|]. simpl.
    destruct (truthy _); simpl; [|done]. intros [= <-]. by apply serialized_onSend.
Qed.

Lemma serialized_exec keep ls es w :
  exec keep es (boot ls) = Some w → serialized w.
Proof. apply exec_invariant; [apply serialized_fire | apply serialized_boot]. Qed.

(** C4, as the claim states it, fails: a send is issued, the user signs
    out and in again while it is outstanding, and the new [Dashboard]
    issues a second send; two sends are then in flight.  This happens
    whether or not [Tabs] keeps inactive contents mounted. *)
Lemma C4_two_sends_in_flight_across_logout :
  sends_in_flight <$> exec true Sample.send_logout_login_send (boot ∅) = Some 2 ∧
  sends_in_flight <$> exec false Sample.send_logout_login_send (boot ∅) = Some 2.
Proof. split; vm_compute; reflexivity. Qed.

(** C4, amended: within one mounted [Dashboard], conversation sends are
    strictly serialized.  After every history of events, the mounted
    [Dashboard] has at most one send in flight, it has one exactly while
    its [isLoading] is set, and while it has one neither trigger, the
    send button or a key press, can issue a second one: both controls
    are disabled until the first send settles. *)
Theorem C4_sends_serialized_within_dashboard
    (keep : bool) (ls : gmap string string) (es : list Event) (w : World) (tr : Tree) :
  exec keep es (boot ls) = Some w → tree w = Some tr →
  (sends_in_flight_of (dash_id tr) w ≤ 1)%nat ∧
  sends_in_flight_of (dash_id tr) w = (if Dash.isLoading (dash tr) then 1 else 0) ∧
  (sends_in_flight_of (dash_id tr) w = 1 →
     fire keep EChatSend w = None ∧ ∀ k, fire keep (EChatKey k) w = None).
Proof.
  intros Hexec Etr. apply serialized_exec in Hexec as [_ Htr].
  destruct (Htr _ Etr) as [_ Hcount]. rewrite Hcount.
  split; [destruct (Dash.isLoading _); lia|]. split; [done|].
  intros Hone. simpl. rewrite Etr.
  unfold Chat.send_disabled, Chat.input_disabled.
  destruct (Dash.isLoading (dash tr)); [|done].
  simpl. rewrite !andb_false_r. done.
Qed.

Lemma C4_sends_serialized_within_dashboard_witness :
  (sends_in_flight_of 0 Sample.sending ≤ 1)%nat ∧
  sends_in_flight_of 0 Sample.sending = 1 ∧
  (sends_in_flight_of 0 Sample.sending = 1 →
     fire true EChatSend Sample.sending = None ∧
     ∀ k, fire true (EChatKey k) Sample.sending = None).
Proof.
  apply (C4_sends_serialized_within_dashboard
           true ∅ Sample.send_once Sample.sending Sample.sending_tree);
    vm_compute; reflexivity.
Defined.

Lemma with_dash_same tr : with_dash (dash tr) tr = tr.
Proof. by destruct tr. Qed.

(** C2, as the claim states it, fails: the history request of a
    signed-in user fails with status 401, and afterwards the principal,
    the persisted token and the bearer header are all still in place and
    the protected view is rendered, not redirected. *)
Lemma C2_unauthorized_history_keeps_session :
  let observe w :=
    (user (session w), getItem "token" (localStorage (session w)),
     headers (session w) !! "Authorization", Router.Routes "/dashboard" (session w)) in
  let kept :=
    Some (Some Sample.asha, Some "abc", Some "Bearer abc",
          Some (Router.DashboardView Sample.asha)) in
  observe <$> exec true Sample.history_unauthorized (boot ∅) = kept ∧
  observe <$> exec false Sample.history_unauthorized (boot ∅) = kept.
Proof. split; vm_compute; reflexivity. Qed.

(** C2, amended: no response handler touches the session.  When a
    protected request settles, with an authorization failure or any
    other outcome, principal, token, persisted token and bearer header
    stay as they were, and so does the decision of the route guard.  A
    failed [fetchChatHistory] or [fetchProfile] changes nothing in the
    dashboard either; after a failed [loadHistory()] at mount the chat
    pane therefore renders no turns. *)
Theorem C2_failed_request_keeps_session
    (keep : bool) (n : nat) (r : Reply) (w w' : World) :
  fire keep (ESettle n r) w = Some w' →
  session w' = session w ∧
  Router.Routes "/dashboard" (session w') = Router.Routes "/dashboard" (session w) ∧
  (∀ st, r = HistoryReply (Failed st) ∨ r = ProfileReply (Failed st) →
         tree w' = tree w) ∧
  (∀ st, Chat.render (Dash.chatMessages
           (Dash.fetchChatHistory_resume (Failed st) Dash.mount)) = Chat.Placeholder).
Proof.
  intros Hfire.
  assert (Hsettle : settle n r w = Some w') by (simpl in Hfire; by destruct (tree w)).
  pose proof (settle_session _ _ _ _ Hsettle) as Hs.
  split; [done|]. split; [by rewrite Hs|]. split; [|done].
  intros st Hr. unfold settle in Hsettle.
  destruct (pending w !! n) as [req|]; [|done].
  destruct (answers req r) eqn:Ea; [|done].
  injection Hsettle as <-. simpl.
  destruct (tree w) as [tr|]; [|done]. simpl. f_equal.
  destruct Hr as [-> | ->]; destruct req; try done; simpl;
    case_decide; try done; apply with_dash_same.
Qed.

Lemma C2_failed_request_keeps_session_witness :
  session Sample.history_failed = session Sample.signed_in ∧
  Router.Routes "/dashboard" (session Sample.history_failed) =
    Router.Routes "/dashboard" (session Sample.signed_in) ∧
  (∀ st, HistoryReply (Failed (Some 401%Z)) = HistoryReply (Failed st) ∨
         HistoryReply (Failed (Some 401%Z)) = ProfileReply (Failed st) →
         tree Sample.history_failed = tree Sample.signed_in) ∧
  (∀ st, Chat.render (Dash.chatMessages
           (Dash.fetchChatHistory_resume (Failed st) Dash.mount)) = Chat.Placeholder).
Proof.
  apply (C2_failed_request_keeps_session
           true 1 (HistoryReply (Failed (Some 401%Z))) Sample.signed_in Sample.history_failed).
  vm_compute. reflexivity.
Defined.

(** C5, as the claim states it, fails: a recommendation is generated
    from the stored profile (academic level high_school) while a save
    is outstanding; the save then succeeds and replaces the profile
    (academic level undergraduate), and the recommendation computed from
    the old profile is still presented.  This happens whether or not
    [Tabs] keeps inactive contents mounted. *)
Lemma C5_saved_profile_keeps_old_recommendation :
  let analyzed w :=
    match pending w !! 2 with
    | Some (PostAnalyze _ body) => body !! "academic_level"
    | _ => None
    end in
  let observe w :=
    (current_profile w ≫= (.!! "academic_level"), recommendations_pane w) in
  let stale :=
    Some (Some (JStr "undergraduate"),
          Some (Recs.AnalysisResult (analysis Sample.advice) false)) in
  analyzed <$> exec true (take 6 Sample.generate_during_save) (boot ∅)
    = Some (Some (JStr "high_school")) ∧
  analyzed <$> exec false (take 6 Sample.generate_during_save) (boot ∅)
    = Some (Some (JStr "high_school")) ∧
  observe <$> exec true Sample.generate_during_save (boot ∅) = stale ∧
  observe <$> exec false Sample.generate_during_save (boot ∅) = stale.
Proof. repeat split; vm_compute; reflexivity. Qed.

(** What an event can do to the profile of the dashboard: nothing, or
    it is a profile load that succeeds and sets what the store answered
    (which may be no profile), or a save that succeeds and sets the form
    data. *)
Lemma profile_changes (keep : bool) (e : Event) (w w' : World) (tr tr' : Tree) :
  fire keep e w = Some w' → tree w = Some tr → tree w' = Some tr' →
  Dash.profile (dash tr') = Dash.profile (dash tr) ∨
  (∃ n data, e = ESettle n (ProfileReply (Ok data)) ∧ Dash.profile (dash tr') = data) ∨
  (∃ n p, e = ESettle n (SaveReply (Ok ())) ∧ Dash.profile (dash tr') = Some p).
Proof.
  intros Hfire Etr Etr'.
  destruct e; simpl in Hfire; rewrite ?Etr in Hfire.
  - injection Hfire as <-. simpl in Etr'. left. congruence.
  - injection Hfire as <-. done.
  - destruct (Form.includes value tabs); [|done]. injection Hfire as <-.
    unfold change_tab in Etr'. destruct (on_tab value tr); [left; congruence|].
    destruct keep; simpl in Etr'; injection Etr' as <-; by left.
  - guarded. injection Hfire as <-. injection Etr' as <-. by left.
  - guarded. simpl in Hfire. injection Hfire as <-. injection Etr' as <-. by left.
  - guarded. destruct (Dash.profile (dash tr)) eqn:Ep; simpl in Hfire; [|done].
    injection Hfire as <-. injection Etr' as <-. by left.
  - guarded. injection Hfire as <-. injection Etr' as <-. by left.
  - guarded. injection Hfire as <-.
    destruct (Chat.handleKeyPress e); [|left; congruence].
    unfold onSend, Dash.sendChatMessage in Etr'. destruct (negb _) in Etr';
      injection Etr' as <-; by left.
  - guarded. injection Hfire as <-.
    unfold onSend, Dash.sendChatMessage in Etr'. destruct (negb _) in Etr';
      injection Etr' as <-; by left.
  - unfold settle in Hfire. destruct (pending w !! n) as [req|]; [|done].
    destruct (answers req r) eqn:Ea; [|done].
    injection Hfire as <-. simpl in Etr'. rewrite Etr in Etr'. injection Etr' as <-.
    destruct req, r as [r|r|r ?|r|r]; try done; simpl.
    + case_decide; [|by left]. destruct r; simpl; [|by left]. right. left. eauto.
    + case_decide; [|by left]. destruct r; by left.
    + case_decide; [|by left]. destruct r; by left.
    + destruct r as [[]|]; simpl; repeat case_decide; simpl; try (by left);
        right; right; eauto.
    + case_decide; by left.
Qed.

(** C5, amended: the cached recommendation of a mounted
    [RecommendationsView] changes only when a generate or regenerate
    request succeeds, which replaces it with the new result, or when the
    view is mounted afresh (a tab change, if [Tabs] unmounts inactive
    contents).  While a recommendation is cached the recommendations tab
    presents it whenever the dashboard holds a profile, and shows the
    no-profile card otherwise; a profile that is held is lost only when
    a profile load answers with no profile.  A save that settles,
    successfully or not, leaves the view's state as it was: after a
    successful save the previously cached recommendation is still
    presented. *)
Theorem C5_cached_recommendation_outlives_save
    (keep : bool) (e : Event) (w w' : World) (tr tr' : Tree) :
  fire keep e w = Some w' → tree w = Some tr → tree w' = Some tr' →
  (Recs.recommendations (view tr') = Recs.recommendations (view tr) ∨
   (∃ n data, e = ESettle n (AnalyzeReply (Ok data)) ∧
              Recs.recommendations (view tr') = Some data) ∨
   (keep = false ∧ ∃ t, e = ETab t ∧ Recs.recommendations (view tr') = None)) ∧
  (∀ n r, e = ESettle n (SaveReply r) → view tr' = view tr) ∧
  (∀ n rec, e = ESettle n (SaveReply (Ok ())) →
     Recs.recommendations (view tr) = Some rec →
     is_Some (Dash.profile (dash tr)) →
     recommendations_pane w' =
       Some (Recs.AnalysisResult (analysis rec) (Recs.isLoading (view tr)))) ∧
  (∀ rec, Recs.recommendations (view tr') = Some rec →
     recommendations_pane w' =
       Some (match Dash.profile (dash tr') with
             | Some _ => Recs.AnalysisResult (analysis rec) (Recs.isLoading (view tr'))
             | None => Recs.NoProfileCard
             end)) ∧
  (is_Some (Dash.profile (dash tr)) → Dash.profile (dash tr') = None →
     ∃ n, e = ESettle n (ProfileReply (Ok None))).
Proof.
  intros Hfire Etr Etr'.
  pose proof (profile_changes keep e w w' tr tr' Hfire Etr Etr') as Hprofile.
  assert (Hsave : ∀ n r, e = ESettle n (SaveReply r) →
            view tr' = view tr ∧
            (is_Some (Dash.profile (dash tr)) → is_Some (Dash.profile (dash tr')))).
  { intros n r ->. simpl in Hfire. rewrite ?Etr in Hfire. unfold settle in Hfire.
    destruct (pending w !! n) as [req|]; [|done].
    destruct (answers req (SaveReply r)) eqn:Ea; [|done].
    injection Hfire as <-. simpl in Etr'. rewrite Etr in Etr'. injection Etr' as <-.
    destruct req; try done. simpl.
    destruct r; simpl; repeat case_decide; simpl; eauto. }
  split; [|split; [|split; [|split]]].
  - destruct e; simpl in Hfire; rewrite ?Etr in Hfire.
    + injection Hfire as <-. simpl in Etr'. left. congruence.
    + injection Hfire as <-. done.
    + destruct (Form.includes value tabs); [|done]. injection Hfire as <-.
      unfold change_tab in Etr'. destruct (on_tab value tr); [left; congruence|].
      destruct keep; simpl in Etr'; injection Etr' as <-; simpl; eauto 10.
    + guarded. injection Hfire as <-.
      injection Etr' as <-. by left.
    + guarded. simpl in Hfire. injection Hfire as <-.
      injection Etr' as <-. by left.
    + guarded.
      destruct (Dash.profile (dash tr)); simpl in Hfire; [|done].
      injection Hfire as <-. injection Etr' as <-. by left.
    + guarded. injection Hfire as <-.
      injection Etr' as <-. by left.
    + guarded. injection Hfire as <-.
      destruct (Chat.handleKeyPress e); [|left; congruence].
      unfold onSend in Etr'. destruct (Dash.sendChatMessage (dash tr)) as [d req].
      injection Etr' as <-. by left.
    + guarded. injection Hfire as <-.
      unfold onSend in Etr'. destruct (Dash.sendChatMessage (dash tr)) as [d req].
      injection Etr' as <-. by left.
    + unfold settle in Hfire. destruct (pending w !! n) as [req|]; [|done].
      destruct (answers req r) eqn:Ea; [|done].
      injection Hfire as <-. simpl in Etr'. rewrite Etr in Etr'. injection Etr' as <-.
      destruct req, r; try done; simpl.
      * case_decide; by left.
      * case_decide; by left.
      * case_decide; by left.
      * destruct r; simpl; repeat case_decide; by left.
      * case_decide; [|by left]. destruct r; simpl; [|by left].
        right. left. eauto.
  - intros n r He. by apply (Hsave n r).
  - intros n rec He Hrec Hp. destruct (Hsave _ _ He) as [Hv [p Hp']]; [done|].
    unfold recommendations_pane. rewrite Etr'. simpl.
    unfold Recs.render. by rewrite Hp', Hv, Hrec.
  - intros rec Hrec. unfold recommendations_pane. rewrite Etr'. simpl.
    unfold Recs.render. rewrite Hrec. by destruct (Dash.profile (dash tr')).
  - intros [p Hp] Hnone. destruct Hprofile as [Heq | [(n & data & -> & Hd) | (n & q & _ & Hq)]].
    + congruence.
    + exists n. congruence.
    + congruence.
Qed.

Lemma C5_cached_recommendation_outlives_save_witness :
  let e := ESettle 1 (SaveReply (Ok ())) in
  let tr := Sample.tree_of Sample.advised in
  let tr' := Sample.tree_of Sample.advised_and_saved in
  (Recs.recommendations (view tr') = Recs.recommendations (view tr) ∨
   (∃ n data, e = ESettle n (AnalyzeReply (Ok data)) ∧
              Recs.recommendations (view tr') = Some data) ∨
   (true = false ∧ ∃ t, e = ETab t ∧ Recs.recommendations (view tr') = None)) ∧
  (∀ n r, e = ESettle n (SaveReply r) → view tr' = view tr) ∧
  (∀ n rec, e = ESettle n (SaveReply (Ok ())) →
     Recs.recommendations (view tr) = Some rec →
     is_Some (Dash.profile (dash tr)) →
     recommendations_pane Sample.advised_and_saved =
       Some (Recs.AnalysisResult (analysis rec) (Recs.isLoading (view tr)))) ∧
  (∀ rec, Recs.recommendations (view tr') = Some rec →
     recommendations_pane Sample.advised_and_saved =
       Some (match Dash.profile (dash tr') with
             | Some _ => Recs.AnalysisResult (analysis rec) (Recs.isLoading (view tr'))
             | None => Recs.NoProfileCard
             end)) ∧
  (is_Some (Dash.profile (dash tr)) → Dash.profile (dash tr') = None →
     ∃ n, e = ESettle n (ProfileReply (Ok None))).
Proof.
  apply (C5_cached_recommendation_outlives_save
           true (ESettle 1 (SaveReply (Ok ()))) Sample.advised Sample.advised_and_saved);
    vm_compute; reflexivity.
Defined.

End AppFacts.

(** ** Assessment form *)

Section FormClaims.
Import Js Data Auth App.

Lemma selection_add (x : string) (arr : list string) :
  Form.selection (Form.checked_change x true arr) = {[x]} ∪ Form.selection arr.
Proof.
  unfold Form.selection. simpl. rewrite list_to_set_app_L. simpl.
  rewrite union_empty_r_L. apply union_comm_L.
Qed.

Lemma selection_remove (x : string) (arr : list string) :
  Form.selection (Form.checked_change x false arr) = Form.selection arr ∖ {[x]}.
Proof.
  unfold Form.selection. simpl. apply set_eq. intros y.
  rewrite elem_of_difference, !elem_of_list_to_set, list_elem_of_filter.
  rewrite elem_of_singleton. tauto.
Qed.

Lemma selection_elem (x : string) (arr : list string) : x ∈ Form.selection arr ↔ x ∈ arr.
Proof. apply elem_of_list_to_set. Qed.

Lemma remove_absent (x : string) (arr : list string) :
  x ∉ arr → Form.checked_change x false arr = arr.
Proof.
  intros Hx. simpl. induction arr as [|y arr IH]; [done|].
  rewrite filter_cons. rewrite not_elem_of_cons in Hx. destruct Hx as [Hne Hx].
  case_decide; [|congruence]. by rewrite IH.
Qed.

Lemma toggle_present (x : string) (arr : list string) :
  x ∈ arr → Form.toggle x arr = Form.checked_change x false arr.
Proof. intros Hx. unfold Form.toggle, Form.includes. by rewrite bool_decide_eq_true_2. Qed.

Lemma toggle_absent (x : string) (arr : list string) :
  x ∉ arr → Form.toggle x arr = Form.checked_change x true arr.
Proof. intros Hx. unfold Form.toggle, Form.includes. by rewrite bool_decide_eq_false_2. Qed.

Lemma removed_is_absent (x : string) (arr : list string) :
  x ∉ Form.checked_change x false arr.
Proof. simpl. rewrite list_elem_of_filter. tauto. Qed.

Lemma added_is_present (x : string) (arr : list string) :
  x ∈ Form.checked_change x true arr.
Proof. simpl. apply elem_of_app. right. apply list_elem_of_singleton. done. Qed.

Lemma toggle_toggle (x : string) (arr : list string) :
  Form.selection (Form.toggle x (Form.toggle x arr)) = Form.selection arr.
Proof.
  destruct (decide (x ∈ arr)) as [Hx|Hx].
  - rewrite (toggle_present x arr Hx), toggle_absent by apply removed_is_absent.
    rewrite selection_add, selection_remove.
    apply selection_elem in Hx. apply set_eq. intros y.
    rewrite elem_of_union, elem_of_difference, elem_of_singleton.
    destruct (decide (y = x)) as [->|]; tauto.
  - rewrite (toggle_absent x arr Hx), toggle_present by apply added_is_present.
    rewrite selection_remove, selection_add.
    rewrite <- selection_elem in Hx. apply set_eq. intros y.
    rewrite elem_of_difference, elem_of_union, elem_of_singleton.
    destruct (decide (y = x)) as [->|]; tauto.
Qed.

(** From an absent value, the two clicks restore the array itself. *)
Lemma toggle_toggle_absent (x : string) (arr : list string) :
  x ∉ arr → Form.toggle x (Form.toggle x arr) = arr.
Proof.
  intros Hx. rewrite (toggle_absent x arr Hx), toggle_present by apply added_is_present.
  simpl. rewrite filter_app, filter_cons, filter_nil.
  case_decide; [done|]. rewrite app_nil_r.
  by apply (remove_absent x arr).
Qed.

(** Unchecking and checking again moves the value to the end. *)
Lemma remove_then_add (x : string) (arr : list string) :
  NoDup arr → x ∈ arr →
  Form.checked_change x true (Form.checked_change x false arr) ≡ₚ arr.
Proof.
  simpl. induction 1 as [|y arr Hy Hnd IH]; [by intros ?%elem_of_nil|].
  intros Hx. rewrite filter_cons. case_decide as Hne.
  - apply elem_of_cons in Hx as [->|Hx]; [done|]. simpl. f_equiv. by apply IH.
  - subst y. pose proof (remove_absent x arr Hy) as E. simpl in E. rewrite E.
    by rewrite <- Permutation_cons_append.
Qed.

Lemma toggle_NoDup (x : string) (arr : list string) :
  NoDup arr → NoDup (Form.toggle x arr).
Proof.
  intros Hnd. destruct (decide (x ∈ arr)) as [Hx|Hx].
  - rewrite toggle_present by done. by apply NoDup_filter.
  - rewrite toggle_absent by done. simpl. apply NoDup_app.
    split; [done|]. split; [|apply NoDup_singleton].
    intros y Hy ->%list_elem_of_singleton. done.
Qed.

Lemma toggle_toggle_Permutation (x : string) (arr : list string) :
  NoDup arr → Form.toggle x (Form.toggle x arr) ≡ₚ arr.
Proof.
  intros Hnd. destruct (decide (x ∈ arr)) as [Hx|Hx].
  - rewrite (toggle_present x arr Hx), toggle_absent by apply removed_is_absent.
    by apply remove_then_add.
  - by rewrite toggle_toggle_absent.
Qed.

(** C9: on the selection a check-box array stands for, a click (toggle)
    is an involution, checking a value that is already selected and
    unchecking one that is not change nothing (the latter leaves even the
    array untouched), and both operations are idempotent: checking is
    set insertion, unchecking is set removal.  The interest and the
    strength boxes both work this way.  Clicks never duplicate a value,
    so the array of a form holds each selected value once, and two
    clicks on a box leave the same values in the array, the clicked one
    possibly at another position. *)
Theorem C9_toggle_is_set_operation (x : string) (arr : list string) :
  Form.selection (Form.toggle x (Form.toggle x arr)) = Form.selection arr ∧
  (x ∈ arr → Form.selection (Form.checked_change x true arr) = Form.selection arr) ∧
  (x ∉ arr → Form.checked_change x false arr = arr) ∧
  Form.selection (Form.checked_change x true (Form.checked_change x true arr))
    = Form.selection (Form.checked_change x true arr) ∧
  Form.checked_change x false (Form.checked_change x false arr)
    = Form.checked_change x false arr ∧
  Form.selection (Form.checked_change x true arr) = {[x]} ∪ Form.selection arr ∧
  Form.selection (Form.checked_change x false arr) = Form.selection arr ∖ {[x]} ∧
  (∀ fd, Form.interests (Form.handle (Form.ClickInterest x) fd)
           = Form.toggle x (Form.interests fd)) ∧
  (∀ fd, Form.strengths (Form.handle (Form.ClickStrength x) fd)
           = Form.toggle x (Form.strengths fd)) ∧
  (NoDup arr → NoDup (Form.toggle x arr) ∧ Form.toggle x (Form.toggle x arr) ≡ₚ arr).
Proof.
  split; [apply toggle_toggle|].
  split. { intros Hx. rewrite selection_add. apply selection_elem in Hx.
           apply set_eq. intros y. rewrite elem_of_union, elem_of_singleton.
           split; [intros [->|]; done | tauto]. }
  split; [apply remove_absent|].
  split. { rewrite !selection_add. apply set_eq. intros y.
           rewrite !elem_of_union. tauto. }
  split; [apply remove_absent, removed_is_absent|].
  split; [apply selection_add|].
  split; [apply selection_remove|].
  split; [intros fd; reflexivity|].
  split; [intros fd; reflexivity|].
  intros Hnd. split; [by apply toggle_NoDup | by apply toggle_toggle_Permutation].
Qed.

Lemma to_object_dom fd : dom (Form.to_object fd) = list_to_set Form.field_names.
Proof. unfold Form.to_object. by rewrite dom_list_to_map_L. Qed.

Lemma to_object_academic_level fd :
  Form.to_object fd !! "academic_level" = Some (JStr (Form.academic_level fd)).
Proof. reflexivity. Qed.

Lemma to_object_user_id fd : Form.to_object fd !! "user_id" = None.
Proof. reflexivity. Qed.

(** C10: the body of every save request is the form data, all eight
    fields, with the one further field [user_id] set to the literal
    ['current_user']: the handler reads nothing of the session, so the
    value is the same whoever is signed in.  The profile handed
    downstream after a successful save is the form data itself, which
    has the eight fields and no [user_id]. *)
Theorem C10_save_body_has_constant_user_id (s : Form.State) :
  let body := (Form.handleSubmit s).2 in
  let handed_on :=
    (Form.handleSubmit_resume (Form.formData s) (Ok ()) (Form.handleSubmit s).1).2 in
  body !! "user_id" = Some (JStr "current_user") ∧
  dom body = list_to_set ("user_id" :: Form.field_names) ∧
  (∀ k, k ≠ "user_id" → body !! k = Form.to_object (Form.formData s) !! k) ∧
  handed_on = Some (Form.to_object (Form.formData s)) ∧
  Form.to_object (Form.formData s) !! "user_id" = None ∧
  dom (Form.to_object (Form.formData s)) = list_to_set Form.field_names ∧
  (∀ keep w w' tr, tree w = Some tr → fire keep ESubmit w = Some w' →
     Form.formData (form tr) = Form.formData s →
     pending w' = (pending w ++
       [PostProfile (dash_id tr) (form_id tr) (Form.formData s) body])%list) ∧
  (∀ f r tr,
     Dash.profile (dash (resume (PostProfile (dash_id tr) f (Form.formData s) body)
                                (SaveReply (Ok r)) tr))
       = handed_on).
Proof.
  simpl. split; [apply lookup_insert_eq|].
  split; [by rewrite dom_insert_L, to_object_dom|].
  split; [by intros k Hk; rewrite lookup_insert_ne|].
  split; [done|]. split; [done|]. split; [apply to_object_dom|]. split.
  - intros keep w w' tr Etr Hfire Hfd. simpl in Hfire. rewrite Etr in Hfire.
    guarded. simpl in Hfire. injection Hfire as <-.
    simpl. by rewrite Hfd.
  - intros f r tr. simpl.
    destruct (decide (dash_id tr = dash_id tr)); [|done]. by case_decide.
Qed.

Lemma handle_level e fd :
  Form.enabled e fd = true →
  Form.level_or_empty (Form.academic_level fd) →
  Form.level_or_empty (Form.academic_level (Form.handle e fd)).
Proof.
  destruct e; simpl; try done.
  intros Hv _. right. by apply bool_decide_eq_true in Hv.
Qed.

Lemma resume_formData req r tr :
  Form.formData (form (resume req r tr)) = Form.formData (form tr).
Proof.
  destruct req, r as [r|r|r ?|r|r]; simpl; try done;
    try (destruct r; simpl); repeat case_decide; done.
Qed.

Lemma levels_update w tr tr' issued :
  levels_from_select w → tree w = Some tr →
  Form.formData (form tr') = Form.formData (form tr) →
  Forall (fun req => match req with PostProfile _ _ _ _ => False | _ => True end) issued →
  levels_from_select (update tr' issued w).
Proof.
  intros [Hform Hpending] Etr Hfd Hissued. split; simpl.
  - intros ? [= <-]. rewrite Hfd. by apply Hform.
  - apply Forall_app. split; [done|].
    eapply Forall_impl; [exact Hissued|]. by intros [].
Qed.

Lemma levels_fire keep e w w' :
  levels_from_select w → fire keep e w = Some w' → levels_from_select w'.
Proof.
  intros Hw. pose proof Hw as [Hform Hpending].
  destruct e; simpl; destruct (tree w) as [tr|] eqn:Etr; try done.
  - intros [= <-]. split; simpl; [|done]. intros ? [= <-]. by apply Hform.
  - intros [= <-]. split; simpl.
    + intros ? [= <-]. by left.
    + apply Forall_app. split; [done|]. by repeat constructor.
  - intros [= <-]. split; simpl; done.
  - destruct (Form.includes value tabs); [|done]. intros [= <-].
    unfold change_tab. destruct (on_tab value tr); [done|]. destruct keep.
    + by apply (levels_update w tr).
    + split; simpl; [|done]. intros ? [= <-]. by left.
  - destruct (on_tab _ _); [|done]. simpl.
    destruct (Form.enabled e _) eqn:Ee; [|done]. intros [= <-].
    split; simpl; [|by rewrite app_nil_r].
    intros ? [= <-]. simpl. apply handle_level; [done|]. by apply Hform.
  - guarded. fired. split; simpl.
    + intros ? [= <-]. simpl. by apply Hform.
    + apply Forall_app. split; [done|]. constructor; [|constructor].
      split; [by apply Hform | done].
  - guarded.
    destruct (Dash.profile (dash tr)); simpl; [|done]. intros [= <-].
    apply (levels_update w tr); try done. by repeat constructor.
  - guarded. fired. by apply (levels_update w tr).
  - guarded. fired.
    destruct (Chat.handleKeyPress e); [|done].
    unfold onSend. destruct (Dash.sendChatMessage (dash tr)) as [d [m|]];
      apply (levels_update w tr); try done; by repeat constructor.
  - guarded. fired.
    unfold onSend. destruct (Dash.sendChatMessage (dash tr)) as [d [m|]];
      apply (levels_update w tr); try done; by repeat constructor.
  - settled n r w. split; simpl.
    + rewrite Etr. intros tr0 [= <-]. rewrite resume_formData. by apply Hform.
    + by apply Forall_delete.
  - settled n r w. split; simpl.
    + by rewrite Etr.
    + by apply Forall_delete.
Qed.

(** C8, as the claim states it, fails: the form is submitted as it was
    mounted, with the academic level still the empty string, which is
    not one of the enumerated values; the save request is issued all the
    same and carries that academic level. *)
Lemma C8_unselected_academic_level_is_transmitted :
  saved_level 2 <$> exec true [ELogin Sample.asha "abc"; ESubmit] (boot ∅)
    = Some (Some (JStr "")) ∧
  saved_level 2 <$> exec false [ELogin Sample.asha "abc"; ESubmit] (boot ∅)
    = Some (Some (JStr "")) ∧
  Form.includes "" Form.academic_levels = false.
Proof. repeat split; vm_compute; reflexivity. Qed.

(** C8, amended: [save(edits)] does no local validation.  A submit
    issues the save request whatever the academic level is, and the body
    carries the form's academic level as it stands.  The only guard is
    the select control, which offers the enumerated values: after every
    history of events the academic level of the form, and of every
    outstanding save request, is one of the enumerated values or the
    initial empty string. *)
Theorem C8_academic_level_is_not_validated
    (keep : bool) (ls : gmap string string) (es : list Event) (w : World) :
  exec keep es (boot ls) = Some w →
  (∀ tr, tree w = Some tr →
     Form.level_or_empty (Form.academic_level (Form.formData (form tr)))) ∧
  (∀ d f captured body, PostProfile d f captured body ∈ pending w →
     ∃ v, body !! "academic_level" = Some (JStr v) ∧ Form.level_or_empty v) ∧
  (∀ tr, tree w = Some tr → on_tab "assessment" tr = true →
     Form.isLoading (form tr) = false →
     ∃ w', fire keep ESubmit w = Some w' ∧
           saved_level (length (pending w)) w'
             = Some (JStr (Form.academic_level (Form.formData (form tr))))).
Proof.
  intros Hexec.
  assert (Hw : levels_from_select w).
  { revert Hexec. apply exec_invariant; [apply levels_fire|].
    split; [done | constructor]. }
  destruct Hw as [Hform Hpending]. split; [done|]. split.
  - intros d f captured body Hin.
    rewrite Forall_forall in Hpending. destruct (Hpending _ Hin) as [Hv ->].
    exists (Form.academic_level captured). split; [|done].
    rewrite lookup_insert_ne by done. apply to_object_academic_level.
  - intros tr Etr Htab Hload. simpl. rewrite Etr, Htab, Hload. simpl.
    eexists. split; [done|]. unfold saved_level. simpl.
    rewrite lookup_app_r by done. rewrite Nat.sub_diag. simpl.
    rewrite lookup_insert_ne by done. apply to_object_academic_level.
Qed.

Lemma C8_academic_level_is_not_validated_witness :
  let w := Sample.signed_in in
  (∀ tr, tree w = Some tr →
     Form.level_or_empty (Form.academic_level (Form.formData (form tr)))) ∧
  (∀ d f captured body, PostProfile d f captured body ∈ pending w →
     ∃ v, body !! "academic_level" = Some (JStr v) ∧ Form.level_or_empty v) ∧
  (∀ tr, tree w = Some tr → on_tab "assessment" tr = true →
     Form.isLoading (form tr) = false →
     ∃ w', fire true ESubmit w = Some w' ∧
           saved_level (length (pending w)) w'
             = Some (JStr (Form.academic_level (Form.formData (form tr))))).
Proof.
  apply (C8_academic_level_is_not_validated true ∅ [ELogin Sample.asha "abc"]).
  vm_compute. reflexivity.
Defined.

End FormClaims.

(** ** Recommendations *)

Section RecommendationClaims.
Import Js Data Auth App.

Lemma profileData_lookup (profile : Profile) (k : string) :
  Recs.profileData profile !! k =
    if decide (k = "user_id" ∨ k = "updated_at") then None else profile !! k.
Proof.
  unfold Recs.profileData. case_decide as Hk.
  - destruct Hk as [-> | ->]; [|apply lookup_delete_eq].
    rewrite lookup_delete_ne by done. apply lookup_delete_eq.
  - rewrite !lookup_delete_ne; [done|intros <-; apply Hk; auto..].
Qed.

(** C7: the generate button and the regenerate button run the same
    handler.  For a fixed profile every invocation, from whatever state
    of the view, issues a request whose payload is the profile without
    [user_id] and [updated_at] and with every other field as it is; two
    invocations therefore carry identical payloads.  In the running
    application a click on either button issues exactly this request. *)
Theorem C7_regenerate_is_generate (profile : Profile) (s1 s2 : Recs.State) :
  let payload := Recs.profileData profile in
  Recs.regenerate_onClick = Recs.generate_onClick ∧
  (Recs.generate_onClick (Some profile) s1).2 = Some payload ∧
  (Recs.regenerate_onClick (Some profile) s2).2 = Some payload ∧
  payload !! "user_id" = None ∧
  payload !! "updated_at" = None ∧
  (∀ k, k ≠ "user_id" → k ≠ "updated_at" → payload !! k = profile !! k) ∧
  dom payload = dom profile ∖ {["user_id"; "updated_at"]} ∧
  (∀ keep w w' tr, tree w = Some tr → Dash.profile (dash tr) = Some profile →
     fire keep EGenerate w = Some w' →
     pending w' = (pending w ++ [PostAnalyze (view_id tr) payload])%list).
Proof.
  cbv zeta. split; [done|]. split; [done|]. split; [done|].
  split; [rewrite profileData_lookup; apply decide_True; tauto|].
  split; [rewrite profileData_lookup; apply decide_True; tauto|].
  split; [intros k ??; rewrite profileData_lookup; apply decide_False; tauto|].
  split.
  - unfold Recs.profileData. rewrite !dom_delete_L. apply set_eq. intros k.
    rewrite !elem_of_difference, elem_of_union, !elem_of_singleton. tauto.
  - intros keep w w' tr Etr Hp. simpl. rewrite Etr, Hp.
    guarded. simpl. by intros [= <-].
Qed.

End RecommendationClaims.

(** * Further properties *)

(** ** Session store and routing *)

Section SessionExtras.
Import Js Auth Router Inv.

Lemma AuthProvider_in_step ls : in_step (AuthProvider ls).
Proof.
  unfold in_step, AuthProvider, useEffect_token. simpl.
  destruct (getItem "token" ls) as [t|] eqn:E; [destruct (truthy t) eqn:Et|]; simpl.
  - split; [done|]. split; [done|]. intros ? [= <-] _. apply lookup_insert_eq.
  - split; [done|]. split; [done|]. intros ? [= <-]. congruence.
  - done.
Qed.

Lemma step_in_step t s : in_step (step t s).
Proof.
  destruct t as [u tok|]; simpl.
  - destruct (login_spec u tok s) as (_ & Ht & Hls & Hh).
    split; [congruence|]. split; [congruence|]. intros ? ? _. congruence.
  - destruct (logout_spec s) as (_ & Ht & Hls & Hh).
    split; [congruence|]. split; [done|]. congruence.
Qed.

Lemma run_in_step ls ts : in_step (run ts (AuthProvider ls)).
Proof.
  destruct ts as [|t ts _] using rev_ind; [apply AuthProvider_in_step|].
  rewrite run_snoc. apply step_in_step.
Qed.

Lemma useEffect_token_headers_other s h :
  h ≠ "Authorization" → headers (useEffect_token s) !! h = headers s !! h.
Proof.
  intros Hh. unfold useEffect_token.
  destruct (token s) as [t|]; [destruct (truthy t)|]; try done.
  simpl. by rewrite lookup_insert_ne.
Qed.

Lemma commit_headers_other s s' h :
  h ≠ "Authorization" → headers (commit s s') !! h = headers s' !! h.
Proof.
  intros Hh. unfold commit. case_decide; [done|]. by apply useEffect_token_headers_other.
Qed.

Lemma step_frame t s :
  delete "token" (localStorage (step t s)) = delete "token" (localStorage s) ∧
  delete "Authorization" (headers (step t s)) = delete "Authorization" (headers s).
Proof.
  split.
  - destruct t; simpl; unfold login, logout; rewrite commit_localStorage; simpl.
    + apply delete_insert_eq.
    + unfold removeItem. apply delete_delete_eq.
  - apply map_eq. intros h. destruct (decide (h = "Authorization")) as [->|Hh].
    + by rewrite !lookup_delete_eq.
    + rewrite !lookup_delete_ne by done.
      destruct t; simpl; unfold login, logout; rewrite commit_headers_other by done; simpl.
      * by rewrite lookup_insert_ne.
      * by rewrite lookup_delete_ne.
Qed.

(** X1: after every history of logins and logouts, from whatever the
    browser had stored at start, the persisted token is the session's
    token; with no token no bearer header is armed, and with a non-empty
    token the header is armed with exactly that token. *)
Theorem X1_token_storage_header_agree (ls : gmap string string) (ts : list Transition) :
  let s := run ts (AuthProvider ls) in
  getItem "token" (localStorage s) = token s ∧
  (token s = None → headers s !! "Authorization" = None) ∧
  (∀ t, token s = Some t → truthy t = true →
        headers s !! "Authorization" = Some (Bearer t)).
Proof. apply run_in_step. Qed.

(** X2: logins and logouts write one key of the local storage, [token],
    and one default header, [Authorization]; every other stored item
    and every other default header is as it was, whatever the history. *)
Theorem X2_transitions_touch_token_only (ts : list Transition) (s : Session) :
  delete "token" (localStorage (run ts s)) = delete "token" (localStorage s) ∧
  delete "Authorization" (headers (run ts s)) = delete "Authorization" (headers s).
Proof.
  induction ts as [|t ts IH] using rev_ind; [done|].
  rewrite run_snoc. destruct (step_frame t (run ts s)) as [-> ->]. exact IH.
Qed.

(** X3: a restart of the application over the storage a session left
    behind restores that session's token and no principal: a signed-in
    user who reloads the page keeps the token, is shown the landing view
    and is redirected away from the dashboard. *)
Theorem X3_restart_keeps_token_drops_principal
    (ls : gmap string string) (ts : list Transition) :
  let s := run ts (AuthProvider ls) in
  let s' := AuthProvider (localStorage s) in
  token s' = token s ∧ user s' = None ∧
  Routes "/" s' = Some LandingView ∧
  Routes "/dashboard" s' = Some (Navigate "/").
Proof.
  intros s s'. subst s'. rewrite AuthProvider_token.
  destruct (run_in_step ls ts) as (Hagree & _).
  split; [done|]. split; [apply AuthProvider_user|].
  unfold Routes, LandingPage, Dashboard. simpl. by rewrite AuthProvider_user.
Qed.

(** X4: redirects never loop.  From either routed path, [/] and
    [/dashboard], the router settles after at most one redirect, on the
    dashboard when a principal is present and on the landing view when
    none is. *)
Theorem X4_redirects_settle_in_one_hop (hops : nat) (s : Session) :
  let view := match user s with Some u => DashboardView u | None => LandingView end in
  Navigation.follow (S hops) "/" s = Some view ∧
  Navigation.follow (S hops) "/dashboard" s = Some view.
Proof.
  simpl. unfold LandingPage, Dashboard. destruct (user s) as [u|] eqn:Eu.
  - split; [|done]. destruct hops; simpl; unfold Dashboard; by rewrite Eu.
  - split; [done|]. destruct hops; simpl; unfold LandingPage; by rewrite Eu.
Qed.

End SessionExtras.

(** ** Conversation *)

Section ChatExtras.
Import Js Data Auth App Inv.

Lemma blank_drop_spaces s : blank (drop_spaces s) = blank s.
Proof.
  induction s as [|a s IH]; [done|]. simpl.
  destruct (is_space a) eqn:Ea; [|done].
  rewrite IH. unfold blank. simpl. by rewrite Ea.
Qed.

Lemma drop_spaces_empty s : drop_spaces s = "" ↔ blank s = true.
Proof.
  induction s as [|a s IH]; [done|]. unfold blank in *. simpl.
  destruct (is_space a); simpl; [done|]. split; discriminate.
Qed.

Lemma blank_rev_string s : blank (rev_string s) = blank s.
Proof.
  unfold blank, rev_string. rewrite String.list_ascii_of_string_of_list_ascii.
  apply eq_true_iff_eq. rewrite !forallb_forall.
  split; intros H a Ha; apply H; [by apply in_rev in Ha | by apply in_rev].
Qed.

Lemma rev_string_empty s : rev_string s = "" ↔ s = "".
Proof.
  unfold rev_string. split; [|by intros ->].
  intros H. apply (f_equal String.list_ascii_of_string) in H.
  rewrite String.list_ascii_of_string_of_list_ascii in H. simpl in H.
  apply (f_equal (@rev _)) in H. rewrite rev_involutive in H. simpl in H.
  apply (f_equal String.string_of_list_ascii) in H.
  by rewrite String.string_of_list_ascii_of_string in H.
Qed.

(** Trimming leaves nothing exactly of a blank input. *)
Lemma trim_empty s : trim s = "" ↔ blank s = true.
Proof.
  unfold trim. rewrite rev_string_empty, drop_spaces_empty.
  by rewrite blank_rev_string, blank_drop_spaces.
Qed.

Lemma truthy_trim s : truthy (trim s) = negb (blank s).
Proof.
  unfold truthy. destruct (blank s) eqn:E.
  - apply trim_empty in E. by rewrite E.
  - simpl. apply negb_true_iff, String.eqb_neq. rewrite trim_empty. congruence.
Qed.





Lemma count_zero_not_in (d : nat) (c : Dash.State) (m : string) (l : list Request) :
  count (is_send_of d) l = 0 → PostChat d c m ∉ l.
Proof.
  intros Hc Hin. apply list_elem_of_lookup in Hin as [n Hn].
  rewrite (count_delete _ _ _ _ Hn) in Hc. simpl in Hc.
  rewrite Nat.eqb_refl in Hc. lia.
Qed.

(** With the loading flag down there is no send to speak of. *)
Lemma send_matches_idle w :
  serialized w →
  (∀ tr, tree w = Some tr → Dash.isLoading (dash tr) = false) →
  send_matches w.
Proof.
  intros [_ Hs] Hidle tr c m Etr Hin. destruct (Hs _ Etr) as [_ Hcount].
  rewrite (Hidle _ Etr) in Hcount. by apply count_zero_not_in in Hin.
Qed.

(** An event that keeps the [Dashboard] instance and its input, and adds
    no send of it, keeps the sends matching. *)
Lemma send_matches_keep w w' tr tr' :
  send_matches w → tree w = Some tr → tree w' = Some tr' →
  dash_id tr' = dash_id tr →
  Dash.chatInput (dash tr') = Dash.chatInput (dash tr) →
  (∀ c m, PostChat (dash_id tr) c m ∈ pending w' → PostChat (dash_id tr) c m ∈ pending w) →
  send_matches w'.
Proof.
  intros Hw Etr Etr' Hid Hin Hsub tr0 c m Etr0 Hc.
  rewrite Etr' in Etr0. injection Etr0 as <-. rewrite Hid in Hc. rewrite Hin.
  by apply (Hw tr c m Etr), Hsub.
Qed.

Lemma elem_of_app_nonsend (d : nat) c m (l issued : list Request) :
  Forall (fun req => is_send req = false) issued →
  PostChat d c m ∈ (l ++ issued)%list → PostChat d c m ∈ l.
Proof.
  intros Hiss [Hin|Hin]%elem_of_app; [done|].
  rewrite Forall_forall in Hiss. by specialize (Hiss _ Hin).
Qed.

Lemma send_matches_update w tr tr' issued :
  send_matches w → tree w = Some tr →
  dash_id tr' = dash_id tr →
  Dash.chatInput (dash tr') = Dash.chatInput (dash tr) →
  Forall (fun req => is_send req = false) issued →
  send_matches (update tr' issued w).
Proof.
  intros Hw Etr Hid Hin Hiss. apply (send_matches_keep w _ tr tr'); try done.
  intros c m. simpl. by apply elem_of_app_nonsend.
Qed.

Lemma send_matches_onSend w tr :
  serialized w → send_matches w → tree w = Some tr →
  Dash.isLoading (dash tr) = false →
  send_matches (onSend tr w).
Proof.
  intros Hs Hw Etr Hload. unfold onSend, Dash.sendChatMessage.
  destruct (truthy (trim (Dash.chatInput (dash tr)))) eqn:Ht; simpl.
  - intros tr0 c m [= <-] Hin. simpl in *.
    destruct Hs as [_ Hs]. destruct (Hs _ Etr) as [_ Hcount]. rewrite Hload in Hcount.
    apply elem_of_app in Hin as [Hin|Hin]; [by apply count_zero_not_in in Hin|].
    apply list_elem_of_singleton in Hin. injection Hin as -> ->. done.
  - by apply (send_matches_update w tr).
Qed.

Lemma resume_dash_id req r tr : dash_id (resume req r tr) = dash_id tr.
Proof.
  destruct req, r as [r|r|r ?|r|r]; simpl; try done;
    try (destruct r; simpl); repeat case_decide; done.
Qed.

(** A continuation leaves the input alone, unless it is the one of a send
    of the mounted [Dashboard], which lowers the loading flag. *)
Lemma resume_chatInput req r tr :
  Dash.chatInput (dash (resume req r tr)) = Dash.chatInput (dash tr) ∨
  Dash.isLoading (dash (resume req r tr)) = false.
Proof.
  destruct req, r as [r|r|r ?|r|r]; simpl; auto;
    try (destruct r; simpl); repeat case_decide; simpl; auto.
Qed.

Lemma matching_fire keep e w w' :
  serialized w ∧ send_matches w → fire keep e w = Some w' →
  serialized w' ∧ send_matches w'.
Proof.
  intros [Hs Hm] Hfire. pose proof (serialized_fire _ _ _ _ Hs Hfire) as Hs'.
  split; [done|]. revert Hfire.
  destruct e; simpl; destruct (tree w) as [tr|] eqn:Etr; try done.
  - fired. apply (send_matches_keep w _ tr tr); done.
  - fired. apply send_matches_idle; [done|]. by intros ? [= <-].
  - fired. by intros ???.
  - destruct (Form.includes value tabs); [|done]. fired.
    unfold change_tab in *. destruct (on_tab value tr); [done|]. destruct keep.
    + by apply (send_matches_update w tr).
    + by eapply (send_matches_keep w _ tr).
  - guarded. fired. by apply (send_matches_update w tr).
  - guarded. fired. apply (send_matches_update w tr); try done. by repeat constructor.
  - guarded. destruct (Dash.profile (dash tr)); simpl; [|done]. fired.
    apply (send_matches_update w tr); try done. by repeat constructor.
  - destruct (on_tab _ _); [|done]. unfold Chat.input_disabled. simpl.
    destruct (Dash.isLoading (dash tr)) eqn:El; [done|]. simpl. fired.
    apply send_matches_idle; [done|]. by intros ? [= <-].
  - destruct (on_tab _ _); [|done]. unfold Chat.input_disabled. simpl.
    destruct (Dash.isLoading (dash tr)) eqn:El; [done|]. simpl. fired.
    destruct (Chat.handleKeyPress e); [|done]. by apply send_matches_onSend.
  - destruct (on_tab _ _); [|done]. unfold Chat.send_disabled. simpl.
    destruct (Dash.isLoading (dash tr)) eqn:El; [done|]. simpl.
    destruct (truthy _); simpl; [|done]. fired. by apply send_matches_onSend.
  - settled n r w.
    destruct (resume_chatInput req r tr) as [Hin|Hidle].
    + apply (send_matches_keep w _ tr (resume req r tr)); try done.
      * simpl. by rewrite Etr.
      * apply resume_dash_id.
      * intros c m. simpl. apply list_elem_of_delete_inv.
    + apply send_matches_idle; [done|]. simpl. rewrite Etr. by intros ? [= <-].
  - settled n r w. intros ???. simpl. by rewrite Etr.
Qed.

Lemma matching_exec keep ls es w :
  exec keep es (boot ls) = Some w → serialized w ∧ send_matches w.
Proof.
  intros Hexec.
  apply (exec_invariant keep (fun w => serialized w ∧ send_matches w)
           (matching_fire keep) es (boot ls) w); [|done].
  split; [apply serialized_boot | by intros ???].
Qed.

(** The world a settling send of the mounted [Dashboard] leaves. *)
Lemma settle_own_send keep w tr n c m r now :
  tree w = Some tr → pending w !! n = Some (PostChat (dash_id tr) c m) →
  fire keep (ESettle n (ChatReply r now)) w =
    Some {| session := session w; fresh := fresh w;
            tree := Some (with_dash (Dash.sendChatMessage_resume c r now (dash tr)) tr);
            pending := delete n (pending w) |}.
Proof.
  intros Etr Hn. simpl. unfold settle. rewrite Hn, Etr. simpl.
  by rewrite decide_True.
Qed.

(** X7: when a send fails the input is not lost.  In every reachable
    state, a failing send of the mounted dashboard leaves in the input
    the very text that was sent, leaves the displayed turns as they are
    and lowers the loading flag: no send is in flight any more and the
    send button is enabled for a retry. *)
Theorem X7_failed_send_keeps_input
    (keep : bool) (ls : gmap string string) (es : list Event) (w : World) (tr : Tree)
    (n : nat) (c : Dash.State) (m : string) (st : option Z) (now : string) :
  exec keep es (boot ls) = Some w → tree w = Some tr →
  pending w !! n = Some (PostChat (dash_id tr) c m) →
  ∃ w' tr',
    fire keep (ESettle n (ChatReply (Failed st) now)) w = Some w' ∧
    tree w' = Some tr' ∧
    Dash.chatInput (dash tr') = m ∧ blank m = false ∧
    Dash.chatMessages (dash tr') = Dash.chatMessages (dash tr) ∧
    Dash.isLoading (dash tr') = false ∧
    sends_in_flight_of (dash_id tr') w' = 0 ∧
    Chat.send_disabled (dash tr') = false.
Proof.
  intros Hexec Etr Hn. destruct (matching_exec _ _ _ _ Hexec) as [Hs Hm].
  destruct (Hm tr c m Etr) as (Hin & _ & Ht & _); [by eapply list_elem_of_lookup_2|].
  pose proof (settle_own_send keep w tr n c m (Failed st) now Etr Hn) as Hfire.
  destruct (serialized_fire _ _ _ _ Hs Hfire) as [_ Hs'].
  destruct (Hs' _ eq_refl) as [_ Hcount]. simpl in Hcount.
  eexists _, _. split; [exact Hfire|]. split; [done|]. simpl.
  rewrite truthy_trim in Ht. apply negb_true_iff in Ht.
  repeat split; try done.
  unfold Chat.send_disabled. simpl. by rewrite truthy_trim, Hin, Ht.
Qed.

(** X8: when a send succeeds, the displayed turns become the turns that
    were displayed when the message was sent, followed by one new turn
    made of the sent text, the reply and the client's time stamp; the
    new turn is the last bubble of the pane.  The input is emptied, the
    loading flag lowered, and the send button stays disabled until
    something is typed. *)
Theorem X8_successful_send_appends_turn
    (keep : bool) (ls : gmap string string) (es : list Event) (w : World) (tr : Tree)
    (n : nat) (c : Dash.State) (m reply now : string) :
  exec keep es (boot ls) = Some w → tree w = Some tr →
  pending w !! n = Some (PostChat (dash_id tr) c m) →
  ∃ w' tr',
    fire keep (ESettle n (ChatReply (Ok reply) now)) w = Some w' ∧
    tree w' = Some tr' ∧
    Dash.chatMessages (dash tr') =
      (Dash.chatMessages c ++
       [{| message := m; response := reply; timestamp := now |}])%list ∧
    Chat.render (Dash.chatMessages (dash tr')) =
      Chat.Bubbles (map (fun msg => (message msg, response msg)) (Dash.chatMessages c)
                    ++ [(m, reply)]) ∧
    Dash.chatInput (dash tr') = "" ∧
    Dash.isLoading (dash tr') = false ∧
    Chat.send_disabled (dash tr') = true.
Proof.
  intros Hexec Etr Hn. destruct (matching_exec _ _ _ _ Hexec) as [Hs Hm].
  destruct (Hm tr c m Etr) as (_ & Hc & _); [by eapply list_elem_of_lookup_2|].
  pose proof (settle_own_send keep w tr n c m (Ok reply) now Etr Hn) as Hfire.
  eexists _, _. split; [exact Hfire|]. split; [done|]. simpl. rewrite Hc.
  repeat split; try done.
  unfold Chat.render. rewrite map_app. simpl.
  by destruct (Dash.chatMessages c).
Qed.


Lemma X7_failed_send_keeps_input_witness :
  ∃ w' tr',
    fire true (ESettle 2 (ChatReply (Failed (Some 500%Z)) "2024-05-01T10:00:00.000Z"))
      Sample.sending = Some w' ∧
    tree w' = Some tr' ∧
    Dash.chatInput (dash tr') = "hi" ∧ blank "hi" = false ∧
    Dash.chatMessages (dash tr') = Dash.chatMessages (dash Sample.sending_tree) ∧
    Dash.isLoading (dash tr') = false ∧
    sends_in_flight_of (dash_id tr') w' = 0 ∧
    Chat.send_disabled (dash tr') = false.
Proof.
  apply (X7_failed_send_keeps_input true ∅ Sample.send_once Sample.sending
           Sample.sending_tree 2 Sample.typed "hi");
    vm_compute; reflexivity.
Defined.

Lemma X8_successful_send_appends_turn_witness :
  ∃ w' tr',
    fire true (ESettle 2 (ChatReply (Ok "hello") "2024-05-01T10:00:00.000Z"))
      Sample.sending = Some w' ∧
    tree w' = Some tr' ∧
    Dash.chatMessages (dash tr') =
      (Dash.chatMessages Sample.typed ++
       [{| message := "hi"; response := "hello";
           timestamp := "2024-05-01T10:00:00.000Z" |}])%list ∧
    Chat.render (Dash.chatMessages (dash tr')) =
      Chat.Bubbles (map (fun msg => (message msg, response msg))
                      (Dash.chatMessages Sample.typed) ++ [("hi", "hello")]) ∧
    Dash.chatInput (dash tr') = "" ∧
    Dash.isLoading (dash tr') = false ∧
    Chat.send_disabled (dash tr') = true.
Proof.
  apply (X8_successful_send_appends_turn true ∅ Sample.send_once Sample.sending
           Sample.sending_tree 2 Sample.typed "hi");
    vm_compute; reflexivity.
Defined.

Lemma includes_chat : Form.includes "chat" tabs = true.
Proof. reflexivity. Qed.

(** X9: a message sent before the chat history has arrived wipes the
    history out.  For a non-blank ASCII message, whatever turns the
    history request then delivers, once the reply arrives the pane holds
    the new turn alone: the continuation of the send appends to the
    turns of the render it was issued from, which had none. *)
Theorem X9_history_arriving_during_send_is_lost
    (keep : bool) (ls : gmap string string) (u : Principal) (t m : string)
    (data : list Turn) (reply now : string) :
  ascii_only m = true → blank m = false →
  shown_turns <$> exec keep (Scenario.send_before_history u t m data reply now) (boot ls)
    = Some (Some [{| message := m; response := reply; timestamp := now |}]) ∧
  shown_turns <$> exec keep (take 5 (Scenario.send_before_history u t m data reply now))
                    (boot ls)
    = Some (Some (rev data)).
Proof.
  intros _ Hb.
  assert (Ht : truthy (trim m) = true) by (by rewrite truthy_trim, Hb).
  unfold trim, rev_string in Ht.
  unfold Scenario.send_before_history.
  destruct keep; cbn [exec take fire boot tree]; unfold mount_dashboard;
    cbn [tree fresh pending]; rewrite includes_chat; cbn; rewrite Ht; cbn;
    unfold onSend, Dash.sendChatMessage; cbn; rewrite Ht; cbn; done.
Qed.

Lemma X9_history_arriving_during_send_is_lost_witness :
  let es := Scenario.send_before_history Sample.asha "abc" "hi"
              [Scenario.earlier_turn] "hello" "2024-05-01T10:00:00.000Z" in
  shown_turns <$> exec false es (boot ∅)
    = Some (Some [{| message := "hi"; response := "hello";
                     timestamp := "2024-05-01T10:00:00.000Z" |}]) ∧
  shown_turns <$> exec false (take 5 es) (boot ∅)
    = Some (Some (rev [Scenario.earlier_turn])).
Proof.
  apply (X9_history_arriving_during_send_is_lost false ∅ Sample.asha "abc" "hi"
           [Scenario.earlier_turn] "hello" "2024-05-01T10:00:00.000Z");
    reflexivity.
Defined.

End ChatExtras.

(** ** The dashboard as a whole *)

Section DashboardExtras.
Import Js Data Auth App Inv.

(** X11: only a login and a logout change the session.  No control of
    the dashboard and no response, successful or failed, touches the
    principal, the token, the local storage or the default headers. *)
Theorem X11_only_login_and_logout_change_session
    (keep : bool) (e : Event) (w w' : World) :
  fire keep e w = Some w' →
  (∀ u t, e ≠ ELogin u t) → e ≠ ELogout →
  session w' = session w.
Proof.
  destruct e; simpl; intros Hfire Hlogin Hlogout;
    try (by destruct Hlogout); try (by destruct (Hlogin userData userToken));
    try (by eapply settle_session);
    destruct (tree w) as [tr|] eqn:Etr; try done; revert Hfire.
  - destruct (Form.includes value tabs); [|done]. fired.
    unfold change_tab. destruct (on_tab value tr); [done|]. by destruct keep.
  - guarded. by fired.
  - guarded. by fired.
  - guarded. destruct (Dash.profile (dash tr)); simpl; [|done]. by fired.
  - guarded. by fired.
  - guarded. fired. destruct (Chat.handleKeyPress e); [|done].
    unfold onSend. by destruct (Dash.sendChatMessage (dash tr)).
  - guarded. fired. unfold onSend. by destruct (Dash.sendChatMessage (dash tr)).
Qed.

Lemma X11_only_login_and_logout_change_session_witness :
  session Sample.sending = session Scenario.typing.
Proof.
  apply (X11_only_login_and_logout_change_session true EChatSend Scenario.typing);
    [vm_compute; reflexivity | done | done].
Defined.

Lemma includes_elem (x : string) (l : list string) : Form.includes x l = true → x ∈ l.
Proof. apply bool_decide_eq_true. Qed.

Lemma toggle_subseteq (x : string) (arr options : list string) :
  x ∈ options → arr ⊆ options → Form.toggle x arr ⊆ options.
Proof.
  intros Hx Harr y. unfold Form.toggle, Form.checked_change.
  destruct (negb _).
  - intros [?|Hy]%elem_of_app; [by apply Harr|].
    apply list_elem_of_singleton in Hy. by subst.
  - intros [??]%list_elem_of_filter. by apply Harr.
Qed.

Lemma mount_well_formed : well_formed (Form.formData Form.mount).
Proof.
  unfold well_formed. simpl.
  repeat split; auto using NoDup_nil_2; try (by left); by intros ? ?%elem_of_nil.
Qed.

Lemma handle_well_formed e fd :
  Form.enabled e fd = true → well_formed fd → well_formed (Form.handle e fd).
Proof.
  intros He (Hl & Hc & Hs & Hsub & Hg & Hi & Hio & Ht & Hto).
  destruct e; simpl in *; unfold well_formed; simpl.
  - apply includes_elem in He. repeat split; auto. by right.
  - apply andb_true_iff in He as [_ He%includes_elem]. repeat split; auto.
  - apply includes_elem in He. repeat split; auto.
  - apply includes_elem in He. repeat split; auto.
    + by apply toggle_NoDup.
    + by apply toggle_subseteq.
  - apply includes_elem in He. repeat split; auto.
    + by apply toggle_NoDup.
    + by apply toggle_subseteq.
  - repeat split; auto.
Qed.

Lemma well_formed_update w tr tr' issued :
  forms_well_formed w → tree w = Some tr →
  Form.formData (form tr') = Form.formData (form tr) →
  Forall (fun req => match req with PostProfile _ _ _ _ => False | _ => True end) issued →
  forms_well_formed (update tr' issued w).
Proof.
  intros [Hform Hpending] Etr Hfd Hissued. split; simpl.
  - intros ? [= <-]. rewrite Hfd. by apply Hform.
  - apply Forall_app. split; [done|].
    eapply Forall_impl; [exact Hissued|]. by intros [].
Qed.

Lemma well_formed_fire keep e w w' :
  forms_well_formed w → fire keep e w = Some w' → forms_well_formed w'.
Proof.
  intros Hw. pose proof Hw as [Hform Hpending].
  destruct e; simpl; destruct (tree w) as [tr|] eqn:Etr; try done.
  - fired. split; simpl; [|done]. intros ? [= <-]. by apply Hform.
  - fired. split; simpl.
    + intros ? [= <-]. apply mount_well_formed.
    + apply Forall_app. split; [done|]. by repeat constructor.
  - fired. split; simpl; done.
  - destruct (Form.includes value tabs); [|done]. fired.
    unfold change_tab. destruct (on_tab value tr); [done|]. destruct keep.
    + by apply (well_formed_update w tr).
    + split; simpl; [|done]. intros ? [= <-]. apply mount_well_formed.
  - destruct (on_tab _ _); [|done]. simpl.
    destruct (Form.enabled e _) eqn:Ee; [|done]. fired.
    split; simpl; [|by rewrite app_nil_r].
    intros ? [= <-]. simpl. apply handle_well_formed; [done|]. by apply Hform.
  - guarded. fired. split; simpl.
    + intros ? [= <-]. simpl. by apply Hform.
    + apply Forall_app. split; [done|]. constructor; [|constructor]. by apply Hform.
  - guarded. destruct (Dash.profile (dash tr)); simpl; [|done]. fired.
    apply (well_formed_update w tr); try done. by repeat constructor.
  - guarded. fired. by apply (well_formed_update w tr).
  - guarded. fired. destruct (Chat.handleKeyPress e); [|done].
    unfold onSend. destruct (Dash.sendChatMessage (dash tr)) as [d [m|]];
      apply (well_formed_update w tr); try done; by repeat constructor.
  - guarded. fired.
    unfold onSend. destruct (Dash.sendChatMessage (dash tr)) as [d [m|]];
      apply (well_formed_update w tr); try done; by repeat constructor.
  - settled n r w. split; simpl.
    + rewrite Etr. intros tr0 [= <-]. rewrite resume_formData. by apply Hform.
    + by apply Forall_delete.
  - settled n r w. split; simpl.
    + by rewrite Etr.
    + by apply Forall_delete.
Qed.

(** X12: the form can only hold what its controls offer.  After every
    history of events, the data of the mounted form and the data
    captured by every outstanding save have a class and a stream that
    are empty or offered by their select, interests and strengths that
    are offered values without duplicates, and no subjects and no grades
    at all: the form has no control that writes these two fields, so
    every save sends them empty. *)
Theorem X12_form_holds_offered_values_only
    (keep : bool) (ls : gmap string string) (es : list Event) (w : World) :
  exec keep es (boot ls) = Some w →
  (∀ tr, tree w = Some tr → well_formed (Form.formData (form tr))) ∧
  (∀ d f captured body, PostProfile d f captured body ∈ pending w →
     well_formed captured ∧
     body !! "subjects" = Some (JArr []) ∧ body !! "grades" = Some (JObj [])).
Proof.
  intros Hexec.
  assert (Hw : forms_well_formed w).
  { apply (exec_invariant keep forms_well_formed (well_formed_fire keep) es (boot ls) w);
      [|done]. split; [done | constructor]. }
  assert (Hl : levels_from_select w).
  { apply (exec_invariant keep levels_from_select (levels_fire keep) es (boot ls) w);
      [|done]. split; [done | constructor]. }
  destruct Hw as [Hform Hpending]. destruct Hl as [_ Hbody]. split; [done|].
  intros d f captured body Hin. rewrite Forall_forall in Hpending, Hbody.
  pose proof (Hpending _ Hin) as Hwf. destruct (Hbody _ Hin) as [_ ->].
  split; [done|]. destruct Hwf as (_ & _ & _ & Hsub & Hg & _).
  rewrite !lookup_insert_ne by done. unfold Form.to_object. simpl.
  by rewrite Hsub, Hg.
Qed.

Lemma X12_form_holds_offered_values_only_witness :
  (∀ tr, tree Sample.advised = Some tr → well_formed (Form.formData (form tr))) ∧
  (∀ d f captured body, PostProfile d f captured body ∈ pending Sample.advised →
     well_formed captured ∧
     body !! "subjects" = Some (JArr []) ∧ body !! "grades" = Some (JObj [])).
Proof.
  apply (X12_form_holds_offered_values_only true ∅ (take 7 Sample.generate_during_save)).
  vm_compute. reflexivity.
Defined.

Lemma child_ids_below_mono (n m : nat) l :
  (n ≤ m)%nat → child_ids_below n l → child_ids_below m l.
Proof.
  intros Hnm H. unfold child_ids_below. eapply Forall_impl; [exact H|].
  intros [] ?; try done; simpl in *; lia.
Qed.

Lemma child_ids_below_fresh (n : nat) l :
  child_ids_below n l →
  ∀ k, (n ≤ k)%nat → count (is_save_of k) l = 0 ∧ count (is_analyze_of k) l = 0.
Proof.
  intros H k Hk. split; apply count_zero; (eapply Forall_impl; [exact H|]);
    intros [] Hd; simpl in *; try done; apply Nat.eqb_neq; lia.
Qed.

Lemma quiet_counts l k :
  Forall quiet l → count (is_save_of k) l = 0 ∧ count (is_analyze_of k) l = 0.
Proof.
  intros H. split; apply count_zero; (eapply Forall_impl; [exact H|]); by intros [].
Qed.

Lemma quiet_below l n : Forall quiet l → child_ids_below n l.
Proof. intros H. eapply Forall_impl; [exact H|]. by intros []. Qed.

(** An event that keeps the form and the view instances with their
    loading flags, and issues neither a save nor an analysis. *)
Lemma single_flight_update w tr tr' issued :
  single_flight w → tree w = Some tr →
  form_id tr' = form_id tr → view_id tr' = view_id tr →
  Form.isLoading (form tr') = Form.isLoading (form tr) →
  Recs.isLoading (view tr') = Recs.isLoading (view tr) →
  Forall quiet issued →
  single_flight (update tr' issued w).
Proof.
  intros [Hids Htr] Etr Hf Hv Hfl Hvl Hq.
  destruct (Htr _ Etr) as (Hlf & Hlv & Hcf & Hcv). split; simpl.
  - apply Forall_app. split; [done | by apply quiet_below].
  - intros ? [= <-]. rewrite Hf, Hv, Hfl, Hvl.
    unfold saves_in_flight_of, analyses_in_flight_of in *. simpl.
    rewrite !count_app, Hcf, Hcv.
    destruct (quiet_counts issued (form_id tr) Hq) as [-> _].
    destruct (quiet_counts issued (view_id tr) Hq) as [_ ->].
    repeat split; try done; lia.
Qed.

Lemma single_flight_onSend w tr :
  single_flight w → tree w = Some tr → single_flight (onSend tr w).
Proof.
  intros Hw Etr. unfold onSend.
  destruct (Dash.sendChatMessage (dash tr)) as [d [m|]];
    apply (single_flight_update w tr); try done; by repeat constructor.
Qed.

Lemma resume_ids req r tr :
  form_id (resume req r tr) = form_id tr ∧ view_id (resume req r tr) = view_id tr.
Proof.
  destruct req, r as [r|r|r ?|r|r]; simpl; try done;
    try (destruct r; simpl); repeat case_decide; done.
Qed.

Lemma resume_save d f c body r tr :
  form (resume (PostProfile d f c body) (SaveReply r) tr) =
    (if decide (f = form_id tr) then Form.setIsLoading false (form tr) else form tr) ∧
  view (resume (PostProfile d f c body) (SaveReply r) tr) = view tr.
Proof. destruct r; simpl; repeat case_decide; done. Qed.

Lemma single_flight_settle n r w w' :
  single_flight w → settle n r w = Some w' → single_flight w'.
Proof.
  intros [Hids Htr]. unfold settle.
  destruct (pending w !! n) as [req|] eqn:En; [|done].
  destruct (answers req r) eqn:Ea; [|done]. fired.
  split; simpl; [by apply Forall_delete|].
  intros tr'. destruct (tree w) as [tr|] eqn:Etr; [|done]. simpl. intros [= <-].
  destruct (Htr _ eq_refl) as (Hlf & Hlv & Hcf & Hcv).
  destruct (resume_ids req r tr) as [-> ->]. split; [done|]. split; [done|].
  unfold saves_in_flight_of, analyses_in_flight_of in *. simpl.
  rewrite (count_delete (is_save_of (form_id tr)) _ _ _ En) in Hcf.
  rewrite (count_delete (is_analyze_of (view_id tr)) _ _ _ En) in Hcv.
  destruct req, r as [r|r|r ?|r|r]; try done.
  - simpl in *. case_decide; done.
  - simpl in *. case_decide; done.
  - simpl in *. case_decide; done.
  - destruct (resume_save d f captured body r tr) as [-> ->]. simpl in Hcf, Hcv.
    split; [|done]. case_decide as Hf.
    + subst f. rewrite Nat.eqb_refl in Hcf. simpl.
      destruct (Form.isLoading (form tr)); lia.
    + apply Nat.eqb_neq in Hf. by rewrite Hf in Hcf.
  - simpl in *. case_decide as Hv; simpl.
    + subst v. rewrite Nat.eqb_refl in Hcv. split; [done|].
      destruct r; simpl; destruct (Recs.isLoading (view tr)); lia.
    + apply Nat.eqb_neq in Hv. rewrite Hv in Hcv. done.
Qed.

Lemma single_flight_fire keep e w w' :
  single_flight w → fire keep e w = Some w' → single_flight w'.
Proof.
  intros Hw. pose proof Hw as [Hids Htr].
  destruct e; simpl; try (by apply single_flight_settle);
    destruct (tree w) as [tr|] eqn:Etr; try done;
    try (destruct (Htr _ eq_refl) as (Hlf & Hlv & Hcf & Hcv)).
  - fired. split; simpl; [done|]. intros ? [= <-]. by apply Htr.
  - fired. unfold mount_dashboard. split; simpl.
    + apply Forall_app. split; [|by repeat constructor].
      eapply child_ids_below_mono; [|done]. lia.
    + intros ? [= <-]. simpl. split; [lia|]. split; [lia|].
      unfold saves_in_flight_of, analyses_in_flight_of. simpl. rewrite !count_app.
      destruct (child_ids_below_fresh _ _ Hids (fresh w + 1)) as [-> _]; [lia|].
      destruct (child_ids_below_fresh _ _ Hids (fresh w + 2)) as [_ ->]; [lia|].
      done.
  - fired. split; simpl; done.
  - destruct (Form.includes value tabs); [|done]. fired.
    unfold change_tab. destruct (on_tab value tr); [done|]. destruct keep.
    + by apply (single_flight_update w tr).
    + split; simpl.
      * eapply child_ids_below_mono; [|done]. lia.
      * intros ? [= <-]. simpl. split; [lia|]. split; [lia|].
        unfold saves_in_flight_of, analyses_in_flight_of. simpl.
        destruct (child_ids_below_fresh _ _ Hids (fresh w)) as [-> _]; [lia|].
        destruct (child_ids_below_fresh _ _ Hids (fresh w + 1)) as [_ ->]; [lia|].
        done.
  - guarded. fired. by apply (single_flight_update w tr).
  - destruct (on_tab _ _); [|done]. simpl.
    destruct (Form.isLoading (form tr)) eqn:El; [done|]. simpl. fired.
    split; simpl.
    + apply Forall_app. split; [done|]. by repeat constructor.
    + intros ? [= <-]. simpl. split; [done|]. split; [done|].
      unfold saves_in_flight_of, analyses_in_flight_of in *. simpl.
      rewrite !count_app, Hcf, Hcv. unfold count. simpl.
      by rewrite Nat.eqb_refl, Nat.add_0_r.
  - destruct (on_tab _ _); [|done]. simpl.
    destruct (Recs.isLoading (view tr)) eqn:El; [done|]. simpl.
    destruct (Dash.profile (dash tr)); simpl; [|done]. fired.
    split; simpl.
    + apply Forall_app. split; [done|]. by repeat constructor.
    + intros ? [= <-]. simpl. split; [done|]. split; [done|].
      unfold saves_in_flight_of, analyses_in_flight_of in *. simpl.
      rewrite !count_app, Hcf, Hcv. unfold count. simpl.
      by rewrite Nat.eqb_refl, Nat.add_0_r.
  - guarded. fired. by apply (single_flight_update w tr).
  - guarded. fired. destruct (Chat.handleKeyPress e); [|done].
    by apply single_flight_onSend.
  - guarded. fired. by apply single_flight_onSend.
Qed.

Lemma single_flight_exec keep ls es w :
  exec keep es (boot ls) = Some w → single_flight w.
Proof.
  intros Hexec.
  apply (exec_invariant keep single_flight (single_flight_fire keep) es (boot ls) w);
    [|done]. split; [constructor | done].
Qed.

(** X13: a profile cannot be submitted twice at once.  After every
    history of events the mounted form has at most one save in flight,
    it has one exactly while its loading flag is set, and while it has
    one the form cannot be submitted again; the controls of the form
    stay usable meanwhile. *)
Theorem X13_one_save_in_flight
    (keep : bool) (ls : gmap string string) (es : list Event) (w : World) (tr : Tree) :
  exec keep es (boot ls) = Some w → tree w = Some tr →
  (saves_in_flight_of (form_id tr) w ≤ 1)%nat ∧
  saves_in_flight_of (form_id tr) w = (if Form.isLoading (form tr) then 1 else 0) ∧
  (saves_in_flight_of (form_id tr) w = 1 → fire keep ESubmit w = None) ∧
  (∀ e, on_tab "assessment" tr = true →
        Form.enabled e (Form.formData (form tr)) = true →
        is_Some (fire keep (EForm e) w)).
Proof.
  intros Hexec Etr. apply single_flight_exec in Hexec as [_ Htr].
  destruct (Htr _ Etr) as (_ & _ & Hcf & _). rewrite Hcf.
  split; [destruct (Form.isLoading _); lia|]. split; [done|]. split.
  - intros Hone. simpl. rewrite Etr.
    destruct (Form.isLoading (form tr)); [|done]. by rewrite andb_false_r.
  - intros e Htab He. simpl. rewrite Etr, Htab, He. simpl. eauto.
Qed.

Lemma X13_one_save_in_flight_witness :
  let tr := Sample.tree_of Scenario.saving in
  (saves_in_flight_of (form_id tr) Scenario.saving ≤ 1)%nat ∧
  saves_in_flight_of (form_id tr) Scenario.saving = 1 ∧
  (saves_in_flight_of (form_id tr) Scenario.saving = 1 →
     fire true ESubmit Scenario.saving = None) ∧
  (∀ e, on_tab "assessment" tr = true →
        Form.enabled e (Form.formData (form tr)) = true →
        is_Some (fire true (EForm e) Scenario.saving)).
Proof.
  apply (X13_one_save_in_flight true ∅ (take 4 Sample.generate_during_save));
    vm_compute; reflexivity.
Defined.

(** X14: recommendations cannot be requested twice at once.  After every
    history of events the mounted recommendations view has at most one
    analysis in flight, it has one exactly while its loading flag is
    set, and meanwhile neither the generate nor the regenerate button
    can issue another. *)
Theorem X14_one_analysis_in_flight
    (keep : bool) (ls : gmap string string) (es : list Event) (w : World) (tr : Tree) :
  exec keep es (boot ls) = Some w → tree w = Some tr →
  (analyses_in_flight_of (view_id tr) w ≤ 1)%nat ∧
  analyses_in_flight_of (view_id tr) w = (if Recs.isLoading (view tr) then 1 else 0) ∧
  (analyses_in_flight_of (view_id tr) w = 1 → fire keep EGenerate w = None).
Proof.
  intros Hexec Etr. apply single_flight_exec in Hexec as [_ Htr].
  destruct (Htr _ Etr) as (_ & _ & _ & Hcv). rewrite Hcv.
  split; [destruct (Recs.isLoading _); lia|]. split; [done|].
  intros Hone. simpl. rewrite Etr.
  destruct (Recs.isLoading (view tr)); [|done]. by rewrite andb_false_r.
Qed.

Lemma X14_one_analysis_in_flight_witness :
  let tr := Sample.tree_of Scenario.analysing in
  (analyses_in_flight_of (view_id tr) Scenario.analysing ≤ 1)%nat ∧
  analyses_in_flight_of (view_id tr) Scenario.analysing = 1 ∧
  (analyses_in_flight_of (view_id tr) Scenario.analysing = 1 →
     fire true EGenerate Scenario.analysing = None).
Proof.
  apply (X14_one_analysis_in_flight true ∅ (take 6 Sample.generate_during_save));
    vm_compute; reflexivity.
Defined.

(** X15: a failed save changes nothing but the loading flag of the
    form.  The profile of the dashboard is not replaced, the cached
    recommendation stays, the session stays, and the form keeps the data
    as the user left it, so the save can be retried. *)
Theorem X15_failed_save_keeps_profile_and_form
    (keep : bool) (n : nat) (st : option Z) (w w' : World) (tr : Tree) :
  fire keep (ESettle n (SaveReply (Failed st))) w = Some w' → tree w = Some tr →
  ∃ tr', tree w' = Some tr' ∧
         dash tr' = dash tr ∧ view tr' = view tr ∧
         Form.formData (form tr') = Form.formData (form tr) ∧
         session w' = session w.
Proof.
  intros Hfire Etr. simpl in Hfire. rewrite ?Etr in Hfire. revert Hfire.
  settled n (SaveReply (Failed st)) w. simpl. rewrite Etr. simpl.
  eexists. split; [done|]. destruct req; try done. simpl.
  repeat case_decide; done.
Qed.

Lemma X15_failed_save_keeps_profile_and_form_witness :
  ∃ tr', tree (default Scenario.saving
                 (fire true (ESettle 1 (SaveReply (Failed (Some 500%Z)))) Scenario.saving))
           = Some tr' ∧
         dash tr' = dash (Sample.tree_of Scenario.saving) ∧
         view tr' = view (Sample.tree_of Scenario.saving) ∧
         Form.formData (form tr') = Form.formData (form (Sample.tree_of Scenario.saving)) ∧
         session (default Scenario.saving
                    (fire true (ESettle 1 (SaveReply (Failed (Some 500%Z)))) Scenario.saving))
           = session Scenario.saving.
Proof.
  apply (X15_failed_save_keeps_profile_and_form true 1 (Some 500%Z) Scenario.saving);
    vm_compute; reflexivity.
Defined.

(** X16: what is analysed after a save is what was saved, less the
    [user_id].  The profile a successful save hands on is the form data;
    a recommendation generated from it carries exactly the eight form
    fields, each with the value the save request carried, and not the
    [user_id] that the save request added. *)
Theorem X16_analysis_after_save_carries_form_fields (s : Form.State) (v : Recs.State) :
  let body := (Form.handleSubmit s).2 in
  let handed_on :=
    (Form.handleSubmit_resume (Form.formData s) (Ok ()) (Form.handleSubmit s).1).2 in
  ∃ payload,
    (Recs.generateRecommendations handed_on v).2 = Some payload ∧
    payload = Form.to_object (Form.formData s) ∧
    dom payload = list_to_set Form.field_names ∧
    dom body = {["user_id"]} ∪ dom payload ∧
    payload !! "user_id" = None ∧
    (∀ k, k ∈ Form.field_names → payload !! k = body !! k ∧ is_Some (payload !! k)).
Proof.
  simpl. eexists. split; [done|].
  assert (Hp : Recs.profileData (Form.to_object (Form.formData s))
               = Form.to_object (Form.formData s)).
  { unfold Recs.profileData. by rewrite !delete_id. }
  rewrite Hp. split; [done|]. split; [apply to_object_dom|].
  split; [by rewrite dom_insert_L|]. split; [done|].
  intros k Hk. assert (k ≠ "user_id").
  { intros ->. unfold Form.field_names in Hk.
    repeat (apply elem_of_cons in Hk as [Hk|Hk]; [done|]). by apply elem_of_nil in Hk. }
  rewrite lookup_insert_ne by done. split; [done|].
  apply elem_of_dom. rewrite to_object_dom. by apply elem_of_list_to_set.
Qed.

End DashboardExtras.

(** ** Signing in *)

Section AuthModalExtras.
Import Js Auth.

(** X17: the sign-in request carries the e-mail address and the password
    and nothing else.  A name typed in register mode stays in the form
    when the mode is switched, but it is sent only by a register
    request, which carries name, e-mail address and password; switching
    the mode twice changes nothing. *)
Theorem X17_login_sends_no_name (v : string) (s : AuthModal.State) :
  let typed := AuthModal.type_name v s in
  let login_request := (AuthModal.handleSubmit (AuthModal.setIsLogin true typed)).2 in
  let register_request := (AuthModal.handleSubmit (AuthModal.setIsLogin false typed)).2 in
  AuthModal.endpoint login_request = "/auth/login" ∧
  dom (AuthModal.payload login_request) = {["email"; "password"]} ∧
  AuthModal.payload login_request !! "email"
    = Some (JStr (AuthModal.email (AuthModal.formData s))) ∧
  AuthModal.payload login_request !! "password"
    = Some (JStr (AuthModal.password (AuthModal.formData s))) ∧
  AuthModal.endpoint register_request = "/auth/register" ∧
  dom (AuthModal.payload register_request) = {["name"; "email"; "password"]} ∧
  AuthModal.payload register_request !! "name" = Some (JStr v) ∧
  AuthModal.payload register_request !! "email" = AuthModal.payload login_request !! "email" ∧
  AuthModal.payload register_request !! "password"
    = AuthModal.payload login_request !! "password" ∧
  AuthModal.formData (AuthModal.toggle_mode typed) = AuthModal.formData typed ∧
  AuthModal.toggle_mode (AuthModal.toggle_mode s) = s.
Proof.
  cbv zeta. unfold AuthModal.handleSubmit, AuthModal.to_object.
  cbn [snd AuthModal.endpoint AuthModal.payload AuthModal.isLogin AuthModal.setIsLogin
       AuthModal.formData AuthModal.type_name AuthModal.setFormData
       AuthModal.name AuthModal.email AuthModal.password].
  split; [done|]. split.
  { rewrite dom_list_to_map_L. cbn. by rewrite union_empty_r_L. }
  split; [done|]. split; [done|]. split; [done|]. split.
  { rewrite dom_list_to_map_L. cbn. rewrite union_empty_r_L.
    by rewrite (assoc_L (∪)). }
  split; [done|]. split; [done|]. split; [done|]. split; [done|].
  unfold AuthModal.toggle_mode, AuthModal.setIsLogin. simpl.
  rewrite negb_involutive. by destruct s.
Qed.

(** X18: a rejected sign-in changes nothing and says so.  The session is
    as it was, the modal stays open with the typed data, its submit
    button is enabled again, and an alert is shown whose text is never
    empty: the server's detail when it has one, the fixed text
    otherwise.  An accepted sign-in signs the user in with the returned
    principal and token, closes the modal and shows no alert. *)
Theorem X18_rejected_sign_in_keeps_session
    (detail : option string) (u : Principal) (tok : string)
    (s : AuthModal.State) (ses : Session) :
  let submitted := (AuthModal.handleSubmit s).1 in
  let rejected := AuthModal.handleSubmit_resume (AuthModal.Rejected detail) submitted ses in
  let accepted := AuthModal.handleSubmit_resume (AuthModal.Authenticated u tok) submitted ses in
  AuthModal.after rejected = ses ∧
  AuthModal.closed rejected = false ∧
  AuthModal.formData (AuthModal.modal rejected) = AuthModal.formData s ∧
  AuthModal.isLoading (AuthModal.modal rejected) = false ∧
  (∃ text, AuthModal.alerted rejected = Some text ∧ truthy text = true ∧
           (∀ d, detail = Some d → truthy d = true → text = d) ∧
           (detail = None ∨ detail = Some "" → text = "Authentication failed")) ∧
  user (AuthModal.after accepted) = Some u ∧
  token (AuthModal.after accepted) = Some tok ∧
  getItem "token" (localStorage (AuthModal.after accepted)) = Some tok ∧
  AuthModal.closed accepted = true ∧
  AuthModal.alerted accepted = None.
Proof.
  simpl. destruct (login_spec u tok ses) as (Hu & Ht & Hls & _).
  repeat split; try done.
  exists (AuthModal.message detail). split; [done|].
  unfold AuthModal.message. destruct detail as [d|]; [destruct (truthy d) eqn:Ed|].
  - split; [done|]. split; [by intros ? [= <-]|]. intros [|[= ->]]; done.
  - split; [done|]. split; [|done]. intros ? [= <-]. congruence.
  - split; [done|]. split; done.
Qed.

End AuthModalExtras.

(** ** The avatar *)

Section AvatarExtras.
Import Avatar.

Lemma join_cons p l : join (p :: l) = String.append p (join l).
Proof. reflexivity. Qed.

Lemma append_single c x : String.append (String c EmptyString) x = String c x.
Proof. reflexivity. Qed.

Lemma append_cons c p x : String.append (String c p) x = String c (String.append p x).
Proof. reflexivity. Qed.

Lemma append_empty x : String.append EmptyString x = x.
Proof. reflexivity. Qed.

Lemma append_assoc p x y :
  String.append (String.append p x) y = String.append p (String.append x y).
Proof.
  induction p as [|c p IH]; [done|]. by rewrite !append_cons, IH.
Qed.

Lemma split_nonempty s : split s ≠ [].
Proof.
  destruct s as [|c s]; simpl; [done|].
  destruct (Ascii.eqb c Ascii.Space); [done|]. by destruct (split s).
Qed.

(** Splitting distributes over a space. *)
Lemma split_space a b :
  split (String.append a (String Ascii.Space b)) = (split a ++ split b)%list.
Proof.
  induction a as [|c a IH]; [done|]. rewrite append_cons.
  cbn [split]. rewrite IH. destruct (Ascii.eqb c Ascii.Space); [done|].
  pose proof (split_nonempty a). by destruct (split a).
Qed.

Lemma join_app l1 l2 : join (l1 ++ l2)%list = String.append (join l1) (join l2).
Proof.
  induction l1 as [|p l1 IH]; [done|].
  rewrite <- app_comm_cons, !join_cons, IH. by rewrite append_assoc.
Qed.

Lemma join_first_length l :
  String.length (join (map first l))
  = length (List.filter (fun p => negb (String.eqb p EmptyString)) l).
Proof.
  induction l as [|p l IH]; [done|]. rewrite map_cons, join_cons.
  destruct p as [|c p].
  - change (first EmptyString) with EmptyString. rewrite append_empty. exact IH.
  - change (first (String c p)) with (String c EmptyString). rewrite append_single.
    cbn [String.length List.filter String.eqb negb length]. by rewrite IH.
Qed.

(** No piece holds a space. *)
Lemma split_no_space s :
  Forall (fun p => Forall (fun c => c ≠ Ascii.Space) (String.list_ascii_of_string p)) (split s).
Proof.
  induction s as [|c s IH]; simpl; [by repeat constructor|].
  destruct (Ascii.eqb c Ascii.Space) eqn:Ec; [by constructor|].
  pose proof (split_nonempty s). destruct (split s) as [|p ps]; [done|].
  apply Forall_cons in IH as [Hp Hps]. constructor; [|done]. simpl.
  constructor; [|done]. by apply Ascii.eqb_neq.
Qed.

Lemma join_first_no_space l :
  Forall (fun p => Forall (fun c => c ≠ Ascii.Space) (String.list_ascii_of_string p)) l →
  Forall (fun c => c ≠ Ascii.Space) (String.list_ascii_of_string (join (map first l))).
Proof.
  induction 1 as [|p l Hp _ IH]; [constructor|]. rewrite map_cons, join_cons.
  destruct p as [|c p].
  - change (first EmptyString) with EmptyString. by rewrite append_empty.
  - change (first (String c p)) with (String c EmptyString). rewrite append_single.
    cbn [String.list_ascii_of_string] in *. constructor; [|done].
    by apply Forall_cons in Hp as [? _].
Qed.

(** X19: the avatar shows the first character of every word of the
    name.  The initials of two names joined by a space are the initials
    of the first followed by those of the second; there are as many
    characters as the name has words, however many spaces separate or
    surround them, and none of them is a space; an empty name gives an
    empty avatar. *)
Theorem X19_avatar_initials (a b : string) :
  initials (String.append a (String Ascii.Space b))
    = String.append (initials a) (initials b) ∧
  String.length (initials a) = words a ∧
  Forall (fun c => c ≠ Ascii.Space) (String.list_ascii_of_string (initials a)) ∧
  initials EmptyString = EmptyString ∧
  initials (String Ascii.Space a) = initials a.
Proof.
  unfold initials, words. split; [by rewrite split_space, map_app, join_app|].
  split; [apply join_first_length|].
  split; [apply join_first_no_space, split_no_space|]. done.
Qed.

End AvatarExtras.
